(** * Canvas and renderer lifecycle of p5.js ([src/core/rendering.js])

    A shallow embedding of [createCanvas], [resizeCanvas], [noCanvas],
    [createGraphics] and [blendMode], and the properties of the lifecycle
    specification proved (or refuted) on it.

    JavaScript objects are kept in stores indexed by reference, so that two
    names for one object (the sketch's [_renderer] and an entry of
    [_elements], the sketch's [canvas] and a node of the document) alias as
    they do in the program.  Every function is a state transformer that
    either returns or throws, and leaves a trace of what it did to its
    collaborators.  What [rendering.js] calls and does not define (the
    renderers, [p5.Graphics], the validator, [redraw], the constants) is a
    parameter or is modelled from the specification, and says so. *)

From stdpp Require Import gmap strings list pretty.

Local Open Scope string_scope.
Local Open Scope Z_scope.
Local Open Scope list_scope.
Local Open Scope stdpp_scope.

(** ** JavaScript values *)

(** The values a property or an argument can hold.  Numbers are only passed
    on and compared, never computed with: integers stand for them.  Objects
    and functions are references. *)
Inductive jsval :=
| VUndefined
| VNull
| VBool (b : bool)
| VNum (n : Z)
| VStr (s : string)
| VObject (ref : nat)
| VFunction (ref : nat).

#[global] Instance jsval_eq_dec : EqDecision jsval.
Proof. solve_decision. Defined.

(** The [typeof] operator. *)
Definition typeof (v : jsval) : string :=
  match v with
  | VUndefined => "undefined"
  | VNull => "object"
  | VBool _ => "boolean"
  | VNum _ => "number"
  | VStr _ => "string"
  | VObject _ => "object"
  | VFunction _ => "function"
  end.

(** The test of [resizeCanvas]:
    [typeof val !== 'object' && typeof val !== 'function']. *)
Definition is_scalar (v : jsval) : bool :=
  negb (String.eqb (typeof v) "object") && negb (String.eqb (typeof v) "function").

(** What a call can throw. *)
Inductive exn :=
| TypeError (msg : string)
| Error (msg : string)
| ValidationError (msg : string)
| Diverges.

(** ** The document *)

(** An element of the document, with the attributes the program touches. *)
Record element := Element {
  el_id : string;
  el_classList : list string;
  el_dataset_hidden : bool;
  el_style_visibility : string;
  el_width : Z;
  el_height : Z
}.

(** The document: [nodes] holds every element ever created, by reference;
    [attached] lists the elements that are in the document, each with its
    parent node, in the order [getElementById] searches them; an element that
    is appended is searched last.  (The order only matters between two
    elements of one id.)  An element that is not listed has a null
    [parentNode].  [body] is the reference of [document.body]. *)
Record document := Document {
  nodes : list element;
  attached : list (nat * nat);
  body : nat
}.

Definition has_id (d : document) (id : string) (c : nat) : Prop :=
  el_id <$> nodes d !! c = Some id.

#[global] Instance has_id_dec d id c : Decision (has_id d id c).
Proof. unfold has_id. apply _. Defined.

(** [document.getElementById(id)]: the first element of the document, in
    document order, whose id is [id]. *)
Definition getElementById (d : document) (id : string) : option nat :=
  (λ hit, fst (snd hit)) <$> list_find (λ cp, has_id d id (fst cp)) (attached d).

(** [c.parentNode]. *)
Definition parentNode (d : document) (c : nat) : option nat :=
  (λ hit, snd (snd hit)) <$> list_find (λ cp, fst cp = c) (attached d).

Definition detach (c : nat) (l : list (nat * nat)) : list (nat * nat) :=
  filter (λ cp, fst cp ≠ c) l.

(** [p.removeChild(c)], for [p] the parent of [c]. *)
Definition removeChild (c : nat) (d : document) : document :=
  Document (nodes d) (detach c (attached d)) (body d).

(** [p.appendChild(c)]: [c] leaves the place it had, if any, and becomes the
    last child of [p]. *)
Definition appendChild (p c : nat) (d : document) : document :=
  Document (nodes d) (detach c (attached d) ++ [(c, p)]) (body d).

(** [document.createElement('canvas')]: a new element, in no document; its
    reference is the next free one. *)
Definition blank_canvas : element :=
  Element EmptyString [] false EmptyString 300 150.

Definition createElement (d : document) : nat * document :=
  (length (nodes d), Document (nodes d ++ [blank_canvas]) (attached d) (body d)).

Definition update_node (c : nat) (f : element → element) (d : document) : document :=
  Document (alter f c (nodes d)) (attached d) (body d).

Definition set_el_id (id : string) (e : element) : element :=
  Element id (el_classList e) (el_dataset_hidden e) (el_style_visibility e)
          (el_width e) (el_height e).

Definition classList_add (cls : string) (e : element) : element :=
  Element (el_id e)
          (if bool_decide (cls ∈ el_classList e) then el_classList e
           else el_classList e ++ [cls])
          (el_dataset_hidden e) (el_style_visibility e) (el_width e) (el_height e).

Definition hide (e : element) : element :=
  Element (el_id e) (el_classList e) true "hidden" (el_width e) (el_height e).

Definition set_el_size (w h : Z) (e : element) : element :=
  Element (el_id e) (el_classList e) (el_dataset_hidden e) (el_style_visibility e) w h.

(** ** Backend contexts and renderers *)

(** The two rendering backends. *)
Inductive backend := Rasterized2D | Accelerated3D.

#[global] Instance backend_eq_dec : EqDecision backend.
Proof. solve_decision. Defined.

(** A backend drawing context: its properties by name, and the names the
    backend protects against assignment. *)
Record context := Context {
  ctx_props : gmap string jsval;
  ctx_readonly : gset string
}.

(** A renderer object ([p5.Renderer2D] or [p5.RendererGL]). *)
Record renderer := Renderer {
  r_backend : backend;
  owningSurface : nat;
  isDefault : bool;
  r_width : Z;
  r_height : Z;
  r_context : nat;
  r_blendMode : option string
}.

(** ** The sketch and the world *)

(** The fields of the sketch instance ([this]) that the file reads or
    writes. *)
Record sketch := Sketch {
  _renderer : option nat;
  _elements : list nat;
  _defaultGraphicsCreated : bool;
  _setupDone : bool;
  _userNode : option nat;
  canvas : option nat;
  drawingContext : option nat;
  width : Z;
  height : Z
}.

(** What a call does to its collaborators, in the order it does it. *)
Inductive event :=
| EvRemoveChild (parent child : nat)
| EvAppendChild (parent child : nat)
| EvCreateElement (node : nat)
| EvElementsFilter (removed : option nat)
| EvElementsPush (r : nat)
| EvNew (r : nat) (b : backend) (surface : nat) (main : bool)
| EvResize (r : nat) (w h : Z)
| EvApplyDefaults (r : nat)
| EvBlendMode (r : nat) (mode : string)
| EvWarn (msg : string)
| EvRedraw.

(** The whole state: the document, the object stores (the contexts, and the
    objects the registry [_elements] refers to), the module variable
    [defaultId], the sketch, and the trace of events so far. *)
Record world := World {
  doc : document;
  contexts : list context;
  renderers : list renderer;
  defaultId : string;
  this : sketch;
  trace : list event
}.

Inductive outcome (A : Type) :=
| Return (a : A) (s : world)
| Throw (e : exn) (s : world).
Arguments Return {A} a s.
Arguments Throw {A} e s.

(** ** A state and exception monad *)

Definition M (A : Type) : Type := world → outcome A.

Definition ret {A} (a : A) : M A := λ s, Return a s.

Definition bind {A B} (m : M A) (k : A → M B) : M B :=
  λ s, match m s with
       | Return a s' => k a s'
       | Throw e s' => Throw e s'
       end.

Definition throw {A} (e : exn) : M A := λ s, Throw e s.

(** [try { m } catch (err) { h err }]. *)
Definition catch {A} (m : M A) (h : exn → M A) : M A :=
  λ s, match m s with
       | Return a s' => Return a s'
       | Throw e s' => h e s'
       end.

Definition gets {A} (f : world → A) : M A := λ s, Return (f s) s.
Definition modify (f : world → world) : M unit := λ s, Return tt (f s).

Declare Scope js_scope.
Delimit Scope js_scope with js.
Notation "'let*' x := m 'in' k" := (bind m (λ x, k))
  (at level 10, x pattern, m at level 100, k at level 200) : js_scope.
Notation "m ;; k" := (bind m (λ _, k))
  (at level 100, k at level 200, right associativity) : js_scope.
Local Open Scope js_scope.

(** [for (x of l) { f x }]. *)
Fixpoint for_each {A} (l : list A) (f : A → M unit) : M unit :=
  match l with
  | [] => ret tt
  | x :: l' => f x ;; for_each l' f
  end.

Definition when (b : bool) (m : M unit) : M unit := if b then m else ret tt.

(** Field updates. *)
Definition with_doc (f : document → document) (s : world) : world :=
  World (f (doc s)) (contexts s) (renderers s) (defaultId s) (this s) (trace s).
Definition with_contexts (f : list context → list context) (s : world) : world :=
  World (doc s) (f (contexts s)) (renderers s) (defaultId s) (this s) (trace s).
Definition with_renderers (f : list renderer → list renderer) (s : world) : world :=
  World (doc s) (contexts s) (f (renderers s)) (defaultId s) (this s) (trace s).
Definition with_defaultId (id : string) (s : world) : world :=
  World (doc s) (contexts s) (renderers s) id (this s) (trace s).
Definition with_this (f : sketch → sketch) (s : world) : world :=
  World (doc s) (contexts s) (renderers s) (defaultId s) (f (this s)) (trace s).
Definition emit (e : event) (s : world) : world :=
  World (doc s) (contexts s) (renderers s) (defaultId s) (this s) (trace s ++ [e]).

Definition set_renderer (r : option nat) (t : sketch) : sketch :=
  Sketch r (_elements t) (_defaultGraphicsCreated t) (_setupDone t) (_userNode t)
         (canvas t) (drawingContext t) (width t) (height t).
Definition set_elements (l : list nat) (t : sketch) : sketch :=
  Sketch (_renderer t) l (_defaultGraphicsCreated t) (_setupDone t) (_userNode t)
         (canvas t) (drawingContext t) (width t) (height t).
Definition set_defaultGraphicsCreated (b : bool) (t : sketch) : sketch :=
  Sketch (_renderer t) (_elements t) b (_setupDone t) (_userNode t)
         (canvas t) (drawingContext t) (width t) (height t).
Definition set_canvas (c : option nat) (t : sketch) : sketch :=
  Sketch (_renderer t) (_elements t) (_defaultGraphicsCreated t) (_setupDone t)
         (_userNode t) c (drawingContext t) (width t) (height t).
Definition set_drawingContext (c : option nat) (t : sketch) : sketch :=
  Sketch (_renderer t) (_elements t) (_defaultGraphicsCreated t) (_setupDone t)
         (_userNode t) (canvas t) c (width t) (height t).
Definition set_size (w h : Z) (t : sketch) : sketch :=
  Sketch (_renderer t) (_elements t) (_defaultGraphicsCreated t) (_setupDone t)
         (_userNode t) (canvas t) (drawingContext t) w h.

Definition set_r_size (w h : Z) (r : renderer) : renderer :=
  Renderer (r_backend r) (owningSurface r) (isDefault r) w h (r_context r) (r_blendMode r).
Definition set_r_blendMode (mode : string) (r : renderer) : renderer :=
  Renderer (r_backend r) (owningSurface r) (isDefault r) (r_width r) (r_height r)
           (r_context r) (Some mode).
Definition set_ctx_props (p : gmap string jsval) (c : context) : context :=
  Context p (ctx_readonly c).

(** ** What the file takes from its collaborators *)

(** The tokens of [constants.js] that the file compares against; the table
    itself is not among the sources, so it is a parameter. *)
Record Constants := {
  P2D : string;
  WEBGL : string;
  BLEND : string;
  DARKEST : string;
  LIGHTEST : string;
  DIFFERENCE : string;
  MULTIPLY : string;
  EXCLUSION : string;
  SCREEN : string;
  REPLACE : string;
  OVERLAY : string;
  HARD_LIGHT : string;
  SOFT_LIGHT : string;
  DODGE : string;
  BURN : string;
  ADD : string;
  NORMAL : string
}.

(** The host: the parameter validator's verdict on a call, what the browser
    does to a backend context (a new one, its properties after the surface is
    resized, its properties after the renderer's defaults are applied), and
    the client's drawing routine. *)
Record Host := {
  validate : string → list jsval → option string;
  getContext : backend → context;
  resized_props : backend → context → Z → Z → gmap string jsval;
  default_props : backend → context → gmap string jsval;
  draw : M unit
}.

Definition defaultClass : string := "p5Canvas".

(** The value of the module variable [defaultId] when the module is loaded. *)
Definition initial_defaultId : string := "defaultCanvas0".

(** [renderer || constants.P2D]: the empty string is falsy. *)
Definition or_default (renderer : option string) (d : string) : string :=
  match renderer with
  | Some (String a s) => String a s
  | _ => d
  end.

Definition optional_arg (renderer : option string) : list jsval :=
  match renderer with
  | Some s => [VStr s]
  | None => []
  end.

(** The [while] loop of [createCanvas]:
    [while (document.getElementById('defaultCanvas' + i)) i++], from [i].
    [createCanvas] runs it with one turn more than the document has
    elements, which it never uses up ([scan_ids_total]). *)
Fixpoint scan_ids (fuel : nat) (d : document) (i : nat) : option nat :=
  match fuel with
  | O => None
  | S fuel' =>
      match getElementById d ("defaultCanvas" +:+ pretty i) with
      | Some _ => scan_ids fuel' d (S i)
      | None => Some i
      end
  end.

(** The properties [resizeCanvas] saves: those of the context whose value is
    neither an object nor a function. *)
Definition snapshot (c : option context) : gmap string jsval :=
  match c with
  | Some c => filter (λ kv, is_scalar (snd kv) = true) (ctx_props c)
  | None => ∅
  end.

Definition node_of (c : option nat) : M nat :=
  match c with
  | Some n => ret n
  | None => throw (TypeError "Cannot read property of undefined")
  end.

(** [document.createElement('canvas')]. *)
Definition document_createElement : M nat :=
  let* c := gets (λ s, fst (createElement (doc s))) in
  modify (with_doc (λ d, snd (createElement d))) ;;
  modify (emit (EvCreateElement c)) ;;
  ret c.

(** [c.parentNode.removeChild(c)]: a [TypeError] when [c.parentNode] is
    null. *)
Definition parentNode_removeChild (c : nat) : M unit :=
  let* p := gets (λ s, parentNode (doc s) c) in
  match p with
  | Some p =>
      modify (with_doc (removeChild c)) ;;
      modify (emit (EvRemoveChild p c))
  | None => throw (TypeError "Cannot read property 'removeChild' of null")
  end.

(** [p.appendChild(c)]. *)
Definition node_appendChild (p : nat) (c : option nat) : M unit :=
  let* c := node_of c in
  modify (with_doc (appendChild p c)) ;;
  modify (emit (EvAppendChild p c)).

(** [this.drawingContext[key] = val], in strict mode: a [TypeError] on a
    property the backend protects. *)
Definition assign_property (key : string) (val : jsval) : M unit :=
  let* i := gets (λ s, drawingContext (this s)) in
  let* c := gets (λ s, i ≫= λ i, contexts s !! i) in
  match i, c with
  | Some i, Some c =>
      if bool_decide (key ∈ ctx_readonly c)
      then throw (TypeError ("Cannot assign to read only property " +:+ key))
      else modify (with_contexts
                     (alter (λ c, set_ctx_props (<[key:=val]> (ctx_props c)) c) i))
  | _, _ => throw (TypeError "Cannot set property of undefined")
  end.

Section Rendering.

Variable constants : Constants.
Variable host : Host.

(** ** Collaborators that are not among the sources *)

(** Modelled from the spec: the parameter validator [p5._validateParameters]
    (section 6: it fails fast with a descriptive error before any state
    mutation).  Its verdict on a call is the host's. *)
Definition _validateParameters (func : string) (args : list jsval) : M unit :=
  match validate host func args with
  | None => ret tt
  | Some msg => throw (ValidationError msg)
  end.

(** Modelled from the spec: the constructors [p5.Renderer2D] and
    [p5.RendererGL] (section 3: a renderer owns its surface and a backend
    context, has a fixed variant and an [isDefault] flag).  The sketch's
    [canvas] and [drawingContext], which [createCanvas], [resizeCanvas] and
    [noCanvas] read and nothing in [rendering.js] writes, are published by
    the construction of a default renderer. *)
Definition new_Renderer (b : backend) (c : nat) (main : bool) : M nat :=
  let* ctx := gets (λ s, length (contexts s)) in
  modify (with_contexts (λ l, l ++ [getContext host b])) ;;
  let* r := gets (λ s, length (renderers s)) in
  modify (with_renderers (λ l, l ++ [Renderer b c main 0 0 ctx None])) ;;
  when main (modify (with_this (set_canvas (Some c))) ;;
             modify (with_this (set_drawingContext (Some ctx)))) ;;
  modify (emit (EvNew r b c main)) ;;
  ret r.

(** Modelled from the spec: [Renderer.resize(w, h)] (sections 4.1 and 6: it
    resizes the owned surface and the renderer to [(w, h)]; resizing a
    backend context is destructive and resets it; the default renderer's
    size is the sketch's public width and height). *)
Definition Renderer_resize (r : nat) (w h : Z) : M unit :=
  let* o := gets (λ s, renderers s !! r) in
  match o with
  | Some o =>
      modify (with_renderers (alter (set_r_size w h) r)) ;;
      modify (with_doc (update_node (owningSurface o) (set_el_size w h))) ;;
      modify (with_contexts
                (alter (λ c, set_ctx_props (resized_props host (r_backend o) c w h) c)
                       (r_context o))) ;;
      when (isDefault o) (modify (with_this (set_size w h))) ;;
      modify (emit (EvResize r w h))
  | None => throw (TypeError "resize is not a function")
  end.

(** Modelled from the spec: [Renderer.applyDefaults()] (section 6); it sets
    properties of the renderer's own context. *)
Definition Renderer_applyDefaults (r : nat) : M unit :=
  let* o := gets (λ s, renderers s !! r) in
  match o with
  | Some o =>
      modify (with_contexts
                (alter (λ c, set_ctx_props (default_props host (r_backend o) c) c)
                       (r_context o))) ;;
      modify (emit (EvApplyDefaults r))
  | None => throw (TypeError "_applyDefaults is not a function")
  end.

(** Modelled from the spec: [Renderer.blendMode(mode)] (section 4.2: the
    renderer persists the mode it is handed as its active mode). *)
Definition Renderer_blendMode (r : nat) (mode : string) : M unit :=
  let* o := gets (λ s, renderers s !! r) in
  match o with
  | Some _ =>
      modify (with_renderers (alter (set_r_blendMode mode) r)) ;;
      modify (emit (EvBlendMode r mode))
  | None => throw (TypeError "blendMode is not a function")
  end.

(** Modelled from the spec: [this.redraw()] (section 6: it re-executes the
    client's per-frame drawing routine once, synchronously). *)
Definition redraw : M unit :=
  modify (emit EvRedraw) ;;
  draw host.

(** Modelled from the spec: the constructor [p5.Graphics] (section 4.1,
    createGraphics: a brand-new, non-default, offscreen renderer and surface
    pair that reuses and replaces nothing; glossary: an offscreen buffer is
    not attached to the display tree; section 3: the registry is the sequence
    of the live renderer references, and non-default renderers have registry
    entries of their own). *)
Definition new_Graphics (w h : Z) (renderer : option string) : M nat :=
  let r := or_default renderer (P2D constants) in
  let* c := document_createElement in
  modify (with_doc (update_node c hide)) ;;
  let* g := new_Renderer (if String.eqb r (WEBGL constants) then Accelerated3D
                          else Rasterized2D) c false in
  modify (with_this (λ t, set_elements (_elements t ++ [g]) t)) ;;
  modify (emit (EvElementsPush g)) ;;
  Renderer_resize g w h ;;
  Renderer_applyDefaults g ;;
  ret g.

(** ** The functions of [rendering.js] *)

(** [this._elements = this._elements.filter(e => e !== thisRenderer)]. *)
Definition elements_filter (thisRenderer : option nat) : M unit :=
  modify (with_this (λ t,
    set_elements (filter (λ e, Some e ≠ thisRenderer) (_elements t)) t)) ;;
  modify (emit (EvElementsFilter thisRenderer)).

(** [this._elements.push(this._renderer)]. *)
Definition elements_push : M unit :=
  let* r := gets (λ s, _renderer (this s)) in
  let* r := node_of r in
  modify (with_this (λ t, set_elements (_elements t ++ [r]) t)) ;;
  modify (emit (EvElementsPush r)).

(** [p5.prototype.createCanvas]. *)
Definition createCanvas (w h : Z) (renderer : option string) : M nat :=
  _validateParameters "createCanvas" ([VNum w; VNum h] ++ optional_arg renderer) ;;
  let r := or_default renderer (P2D constants) in
  let* c :=
    if String.eqb r (WEBGL constants) then
      let* c := gets (λ s, getElementById (doc s) (defaultId s)) in
      match c with
      | Some c =>
          parentNode_removeChild c ;;
          let* thisRenderer := gets (λ s, _renderer (this s)) in
          elements_filter thisRenderer
      | None => ret tt
      end ;;
      let* c := document_createElement in
      let* id := gets defaultId in
      modify (with_doc (update_node c (set_el_id id))) ;;
      modify (with_doc (update_node c (classList_add defaultClass))) ;;
      ret (Some c)
    else
      let* created := gets (λ s, _defaultGraphicsCreated (this s)) in
      if negb created then
        let* c := document_createElement in
        let* i := gets (λ s, scan_ids (S (length (attached (doc s)))) (doc s) 0) in
        match i with
        | Some i =>
            modify (with_defaultId ("defaultCanvas" +:+ pretty i)) ;;
            let* id := gets defaultId in
            modify (with_doc (update_node c (set_el_id id))) ;;
            modify (with_doc (update_node c (classList_add defaultClass))) ;;
            ret (Some c)
        | None => throw Diverges
        end
      else
        gets (λ s, canvas (this s)) in
  (let* setupDone := gets (λ s, _setupDone (this s)) in
   when (negb setupDone)
        (let* c := node_of c in modify (with_doc (update_node c hide)))) ;;
  (let* userNode := gets (λ s, _userNode (this s)) in
   match userNode with
   | Some n => node_appendChild n c
   | None => let* b := gets (λ s, body (doc s)) in node_appendChild b c
   end) ;;
  (if String.eqb r (WEBGL constants) then
     let* c := node_of c in
     let* g := new_Renderer Accelerated3D c true in
     modify (with_this (set_renderer (Some g))) ;;
     elements_push
   else
     let* created := gets (λ s, _defaultGraphicsCreated (this s)) in
     when (negb created)
          (let* c := node_of c in
           let* g := new_Renderer Rasterized2D c true in
           modify (with_this (set_renderer (Some g))) ;;
           modify (with_this (set_defaultGraphicsCreated true)) ;;
           elements_push)) ;;
  let* g := gets (λ s, _renderer (this s)) in
  let* g := node_of g in
  Renderer_resize g w h ;;
  Renderer_applyDefaults g ;;
  ret g.

(** [p5.prototype.resizeCanvas]; a call without [noRedraw] is the call with
    [false]. *)
Definition resizeCanvas (w h : Z) (noRedraw : bool) : M unit :=
  _validateParameters "resizeCanvas" [VNum w; VNum h; VBool noRedraw] ;;
  let* g := gets (λ s, _renderer (this s)) in
  match g with
  | Some g =>
      let* props :=
        gets (λ s, snapshot (drawingContext (this s) ≫= λ i, contexts s !! i)) in
      Renderer_resize g w h ;;
      modify (with_this (set_size w h)) ;;
      for_each (map_to_list props)
               (λ saved, catch (assign_property (fst saved) (snd saved))
                               (λ err, ret tt)) ;;
      when (negb noRedraw) redraw
  | None => ret tt
  end.

(** [p5.prototype.noCanvas]. *)
Definition noCanvas : M unit :=
  let* c := gets (λ s, canvas (this s)) in
  match c with
  | Some c => parentNode_removeChild c
  | None => ret tt
  end.

(** [p5.prototype.createGraphics]. *)
Definition createGraphics (w h : Z) (renderer : option string) : M nat :=
  _validateParameters "createGraphics" ([VNum w; VNum h] ++ optional_arg renderer) ;;
  new_Graphics w h renderer.

(** [this._renderer.blendMode(mode)]. *)
Definition this_renderer_blendMode (mode : string) : M unit :=
  let* g := gets (λ s, _renderer (this s)) in
  match g with
  | Some g => Renderer_blendMode g mode
  | None => throw (TypeError "Cannot read property 'blendMode' of undefined")
  end.

(** [p5.prototype.blendMode], for a mode that is a string, as the tokens
    are. *)
Definition blendMode (mode : string) : M unit :=
  _validateParameters "blendMode" [VStr mode] ;;
  if String.eqb mode (BLEND constants) ||
     String.eqb mode (DARKEST constants) ||
     String.eqb mode (LIGHTEST constants) ||
     String.eqb mode (DIFFERENCE constants) ||
     String.eqb mode (MULTIPLY constants) ||
     String.eqb mode (EXCLUSION constants) ||
     String.eqb mode (SCREEN constants) ||
     String.eqb mode (REPLACE constants) ||
     String.eqb mode (OVERLAY constants) ||
     String.eqb mode (HARD_LIGHT constants) ||
     String.eqb mode (SOFT_LIGHT constants) ||
     String.eqb mode (DODGE constants) ||
     String.eqb mode (BURN constants) ||
     String.eqb mode (ADD constants)
  then this_renderer_blendMode mode
  else if String.eqb mode (NORMAL constants) then
    modify (emit (EvWarn
      "NORMAL has been deprecated for use in blendMode. defaulting to BLEND instead.")) ;;
    this_renderer_blendMode (BLEND constants)
  else throw (Error ("Mode " +:+ mode +:+ " not recognized.")).

End Rendering.

(** ** Vocabulary of the properties *)

(** The fourteen compositing tokens [blendMode] accepts, in the order the
    function tests them. *)
Definition valid_modes (k : Constants) : list string :=
  [BLEND k; DARKEST k; LIGHTEST k; DIFFERENCE k; MULTIPLY k; EXCLUSION k; SCREEN k;
   REPLACE k; OVERLAY k; HARD_LIGHT k; SOFT_LIGHT k; DODGE k; BURN k; ADD k].

(** The backend a call of [createCanvas] or [createGraphics] asks for: the
    3D one when [renderer || constants.P2D] is [constants.WEBGL], the 2D one
    otherwise. *)
Definition requested (k : Constants) (renderer : option string) : backend :=
  if String.eqb (or_default renderer (P2D k)) (WEBGL k) then Accelerated3D
  else Rasterized2D.

(** The object behind the reference [g] is a renderer flagged default. *)
Definition is_default (s : world) (g : nat) : Prop :=
  isDefault <$> renderers s !! g = Some true.

#[global] Instance is_default_dec s g : Decision (is_default s g).
Proof. unfold is_default. apply _. Defined.

(** The entries of the registry that are flagged as the default renderer. *)
Definition default_renderers (s : world) : list nat :=
  filter (is_default s) (_elements (this s)).

(** The state invariant of a sketch: without a renderer there is no default
    surface and no 2D canvas was created; with one, it is a default renderer
    in the store, the sketch's [canvas] is its surface, an element of the
    store, and a 2D default renderer means the 2D canvas was created. *)
Definition wf (s : world) : Prop :=
  match _renderer (this s) with
  | None => canvas (this s) = None ∧ _defaultGraphicsCreated (this s) = false
  | Some g =>
      ∃ o, renderers s !! g = Some o ∧ isDefault o = true ∧
           canvas (this s) = Some (owningSurface o) ∧
           (owningSurface o < length (nodes (doc s)))%nat ∧
           (r_backend o = Rasterized2D → _defaultGraphicsCreated (this s) = true)
  end.

(** The test [blendMode] opens with, on its own. *)
Definition mode_test (k : Constants) (mode : string) : bool :=
  String.eqb mode (BLEND k) || String.eqb mode (DARKEST k) ||
  String.eqb mode (LIGHTEST k) || String.eqb mode (DIFFERENCE k) ||
  String.eqb mode (MULTIPLY k) || String.eqb mode (EXCLUSION k) ||
  String.eqb mode (SCREEN k) || String.eqb mode (REPLACE k) ||
  String.eqb mode (OVERLAY k) || String.eqb mode (HARD_LIGHT k) ||
  String.eqb mode (SOFT_LIGHT k) || String.eqb mode (DODGE k) ||
  String.eqb mode (BURN k) || String.eqb mode (ADD k).

(** ** A sample table, two sample hosts and a sample sketch *)

(** A table in which every token is its own name. *)
Definition token_constants : Constants :=
  Build_Constants "P2D" "WEBGL" "BLEND" "DARKEST" "LIGHTEST" "DIFFERENCE" "MULTIPLY"
    "EXCLUSION" "SCREEN" "REPLACE" "OVERLAY" "HARD_LIGHT" "SOFT_LIGHT" "DODGE" "BURN"
    "ADD" "NORMAL".

Definition fresh_props : gmap string jsval :=
  {[ "strokeStyle" := VStr "#000000"; "lineWidth" := VNum 1; "canvas" := VObject 0 ]}.

(** A host whose validator accepts every call, whose contexts start from and
    are reset to [fresh_props], and whose drawing routine draws nothing. *)
Definition quiet_host : Host :=
  Build_Host (λ _ _, None)
             (λ _, Context fresh_props {["canvas"]})
             (λ _ _ _ _, fresh_props)
             (λ _ c, <["fillStyle" := VStr "#ffffff"]> (ctx_props c))
             (ret tt).


(** A page with only its body, and a sketch that has created nothing yet. *)
Definition empty_world : world :=
  World (Document [Element EmptyString [] false EmptyString 0 0] [] 0%nat) [] []
        initial_defaultId
        (Sketch None [] false false None None None 100 100) [].

(** The state a call leaves, whether it returns or throws. *)
Definition state_after {A} (m : M A) (s : world) : world :=
  match m s with
  | Return _ s' => s'
  | Throw _ s' => s'
  end.

(** The state [Renderer.blendMode(mode)] leaves on renderer [g]. *)
Definition blended (g : nat) (mode : string) (s : world) : world :=
  emit (EvBlendMode g mode) (with_renderers (alter (set_r_blendMode mode) g) s).

(** The sample sketch after [createCanvas(100, 100)]. *)
Definition canvas_world : world :=
  state_after (createCanvas token_constants quiet_host 100 100 None) empty_world.

(** A page whose body already holds an element with the id
    [defaultCanvas0], and a sketch that has created nothing yet. *)
Definition occupied_world : world :=
  World (Document [Element EmptyString [] false EmptyString 0 0;
                   Element "defaultCanvas0" [] false EmptyString 300 150]
                  [(1%nat, 0%nat)] 0%nat)
        [] [] initial_defaultId
        (Sketch None [] false false None None None 100 100) [].

(** The sample sketch after [createCanvas(100, 100, WEBGL)]. *)
Definition webgl_world : world :=
  state_after (createCanvas token_constants quiet_host 100 100 (Some "WEBGL")) empty_world.

(** The sample sketch after [createCanvas(100, 100)] and then
    [createCanvas(100, 100, WEBGL)]. *)
Definition replaced_world : world :=
  state_after (createCanvas token_constants quiet_host 100 100 (Some "WEBGL")) canvas_world.

(** The state [Renderer.resize(w, h)] leaves on renderer [g], whose object
    was [o]. *)
Definition resized (H : Host) (g : nat) (o : renderer) (w h : Z) (s : world) : world :=
  emit (EvResize g w h)
    ((if isDefault o then with_this (set_size w h) else id)
       (with_contexts
          (alter (λ c, set_ctx_props (resized_props H (r_backend o) c w h) c)
                 (r_context o))
          (with_doc (update_node (owningSurface o) (set_el_size w h))
             (with_renderers (alter (set_r_size w h) g) s)))).

(** The state [Renderer.applyDefaults()] leaves on renderer [g]. *)
Definition defaulted (H : Host) (g : nat) (o : renderer) (s : world) : world :=
  emit (EvApplyDefaults g)
    (with_contexts
       (alter (λ c, set_ctx_props (default_props H (r_backend o) c) c) (r_context o)) s).

(** One turn of the restoring loop of [resizeCanvas]: the assignment, or
    nothing when the assignment throws. *)
Definition assigned (key : string) (val : jsval) (s : world) : world :=
  match drawingContext (this s) with
  | Some i =>
      match contexts s !! i with
      | Some c =>
          if bool_decide (key ∈ ctx_readonly c) then s
          else with_contexts
                 (alter (λ c, set_ctx_props (<[key:=val]> (ctx_props c)) c) i) s
      | None => s
      end
  | None => s
  end.

(** The whole restoring loop. *)
Definition restored (props : list (string * jsval)) (s : world) : world :=
  foldl (λ s saved, assigned (fst saved) (snd saved) s) s props.

(** What [resizeCanvas] saves in state [s]. *)
Definition saved_props (s : world) : gmap string jsval :=
  snapshot (drawingContext (this s) ≫= λ i, contexts s !! i).

(** The phases of [createCanvas], as the states they leave. *)

(** The teardown of the WEBGL branch: the element [c] found under
    [defaultId], child of [p], is removed from its parent, and the sketch's
    current renderer is filtered out of [_elements]. *)
Definition torn_down (c p : nat) (s : world) : world :=
  emit (EvElementsFilter (_renderer (this s)))
    (with_this
       (λ t, set_elements (filter (λ e, Some e ≠ _renderer (this s)) (_elements t)) t)
       (emit (EvRemoveChild p c) (with_doc (removeChild c) s))).

(** A new canvas element with id [id] and class [defaultClass]. *)
Definition with_canvas (id : string) (s : world) : world :=
  let c := length (nodes (doc s)) in
  with_doc (update_node c (classList_add defaultClass))
    (with_doc (update_node c (set_el_id id))
       (emit (EvCreateElement c) (with_doc (λ d, snd (createElement d)) s))).

(** The node [createCanvas] appends the canvas to. *)
Definition container (s : world) : nat :=
  match _userNode (this s) with
  | Some n => n
  | None => body (doc s)
  end.

(** The canvas [c] hidden while the sketch is in setup, and appended to its
    container. *)
Definition presented (c : nat) (s : world) : world :=
  emit (EvAppendChild (container s) c)
    (with_doc (appendChild (container s) c)
       (if _setupDone (this s) then s else with_doc (update_node c hide) s)).

(** The renderer object a constructor makes on surface [c] in state [s]. *)
Definition new_object (b : backend) (c : nat) (main : bool) (s : world) : renderer :=
  Renderer b c main 0 0 (length (contexts s)) None.

(** The state a constructor of a default renderer leaves. *)
Definition constructed (H : Host) (b : backend) (c : nat) (s : world) : world :=
  emit (EvNew (length (renderers s)) b c true)
    (with_this (set_drawingContext (Some (length (contexts s))))
       (with_this (set_canvas (Some c))
          (with_renderers (λ l, l ++ [new_object b c true s])
             (with_contexts (λ l, l ++ [getContext H b]) s)))).

(** A new default renderer on [c], made the sketch's renderer and pushed on
    [_elements]; the 2D branch also sets [_defaultGraphicsCreated]. *)
Definition with_renderer (H : Host) (b : backend) (c : nat) (s : world) : world :=
  let g := length (renderers s) in
  emit (EvElementsPush g)
    (with_this (λ t, set_elements (_elements t ++ [g]) t)
       ((if decide (b = Rasterized2D) then with_this (set_defaultGraphicsCreated true)
         else id)
          (with_this (set_renderer (Some g)) (constructed H b c s)))).

(** The closing lines: [resize(w, h)] then [_applyDefaults()] on [g]. *)
Definition sized (H : Host) (g : nat) (o : renderer) (w h : Z) (s : world) : world :=
  defaulted H g o (resized H g o w h s).

(** ['defaultCanvas' + i]. *)
Definition slot_id (i : nat) : string := "defaultCanvas" +:+ pretty i.

(** The index the scanning loop of [createCanvas] stops at: the least [i]
    for which no element of the document has the id ['defaultCanvas' + i]. *)
Definition free_slot (d : document) (i : nat) : Prop :=
  getElementById d (slot_id i) = None ∧
  ∀ j, (j < i)%nat → is_Some (getElementById d (slot_id j)).

(** The blocks of [createCanvas], named. *)

(** The surface of the WEBGL branch. *)
Definition surface_3d : M (option nat) :=
  let* c := gets (λ s, getElementById (doc s) (defaultId s)) in
  match c with
  | Some c =>
      parentNode_removeChild c ;;
      let* thisRenderer := gets (λ s, _renderer (this s)) in
      elements_filter thisRenderer
  | None => ret tt
  end ;;
  let* c := document_createElement in
  let* id := gets defaultId in
  modify (with_doc (update_node c (set_el_id id))) ;;
  modify (with_doc (update_node c (classList_add defaultClass))) ;;
  ret (Some c).

(** The surface of the P2D branch. *)
Definition surface_2d : M (option nat) :=
  let* created := gets (λ s, _defaultGraphicsCreated (this s)) in
  if negb created then
    let* c := document_createElement in
    let* i := gets (λ s, scan_ids (S (length (attached (doc s)))) (doc s) 0) in
    match i with
    | Some i =>
        modify (with_defaultId ("defaultCanvas" +:+ pretty i)) ;;
        let* id := gets defaultId in
        modify (with_doc (update_node c (set_el_id id))) ;;
        modify (with_doc (update_node c (classList_add defaultClass))) ;;
        ret (Some c)
    | None => throw Diverges
    end
  else
    gets (λ s, canvas (this s)).

(** Hiding the surface while the sketch is in setup. *)
Definition hide_in_setup (c : option nat) : M unit :=
  let* setupDone := gets (λ s, _setupDone (this s)) in
  when (negb setupDone)
       (let* c := node_of c in modify (with_doc (update_node c hide))).

(** Appending the surface to the user's node, or to the body. *)
Definition append_to_container (c : option nat) : M unit :=
  let* userNode := gets (λ s, _userNode (this s)) in
  match userNode with
  | Some n => node_appendChild n c
  | None => let* b := gets (λ s, body (doc s)) in node_appendChild b c
  end.

(** The renderer of the WEBGL branch. *)
Definition renderer_3d (H : Host) (c : option nat) : M unit :=
  let* c := node_of c in
  let* g := new_Renderer H Accelerated3D c true in
  modify (with_this (set_renderer (Some g))) ;;
  elements_push.

(** The renderer of the P2D branch. *)
Definition renderer_2d (H : Host) (c : option nat) : M unit :=
  let* created := gets (λ s, _defaultGraphicsCreated (this s)) in
  when (negb created)
       (let* c := node_of c in
        let* g := new_Renderer H Rasterized2D c true in
        modify (with_this (set_renderer (Some g))) ;;
        modify (with_this (set_defaultGraphicsCreated true)) ;;
        elements_push).

(** The closing lines. *)
Definition finish (H : Host) (w h : Z) : M nat :=
  let* g := gets (λ s, _renderer (this s)) in
  let* g := node_of g in
  Renderer_resize H g w h ;;
  Renderer_applyDefaults H g ;;
  ret g.

(** The state the constructor [p5.Graphics] leaves before it sizes its
    renderer: a new hidden canvas outside the document, a new non-default
    renderer on it, pushed on [_elements]. *)
Definition offscreen (H : Host) (b : backend) (s : world) : world :=
  let c := length (nodes (doc s)) in
  let g := length (renderers s) in
  emit (EvElementsPush g)
    (with_this (λ t, set_elements (_elements t ++ [g]) t)
       (emit (EvNew g b c false)
          (with_renderers (λ l, l ++ [new_object b c false s])
             (with_contexts (λ l, l ++ [getContext H b])
                (with_doc (update_node c hide)
                   (emit (EvCreateElement c)
                      (with_doc (λ d, snd (createElement d)) s))))))).

(** A sketch that has created no canvas yet: no renderer, no 2D canvas, no
    default renderer in the registry, and a registry of objects of the
    store. *)
Definition fresh (s : world) : Prop :=
  _renderer (this s) = None ∧
  _defaultGraphicsCreated (this s) = false ∧
  default_renderers s = [] ∧
  Forall (λ e, (e < length (renderers s))%nat) (_elements (this s)).

(** A sketch with its one default renderer: the sketch's renderer [g] is the
    only entry of the registry flagged default, its surface is the sketch's
    canvas, and that canvas is the one element of the document under
    [defaultId]. *)
Definition single_default (s : world) : Prop :=
  ∃ g o,
    _renderer (this s) = Some g ∧
    renderers s !! g = Some o ∧
    isDefault o = true ∧
    canvas (this s) = Some (owningSurface o) ∧
    default_renderers s = [g] ∧
    Forall (λ e, (e < length (renderers s))%nat) (_elements (this s)) ∧
    getElementById (doc s) (defaultId s) = Some (owningSurface o) ∧
    (∀ c p, (c, p) ∈ attached (doc s) →
            has_id (doc s) (defaultId s) c → c = owningSurface o).





(** * Properties *)

(** ** Compositing-mode dispatch *)

Lemma mode_test_spec k mode : mode_test k mode = true ↔ mode ∈ valid_modes k.
Proof.
  unfold mode_test, valid_modes.
  rewrite !orb_true_iff, !String.eqb_eq, !elem_of_cons, elem_of_nil.
  tauto.
Qed.

Lemma mode_test_false k mode : mode ∉ valid_modes k → mode_test k mode = false.
Proof.
  intros Hn. destruct (mode_test k mode) eqn:E; [|done].
  apply mode_test_spec in E. done.
Qed.

Lemma blendMode_unfold k H mode :
  blendMode k H mode =
  (_validateParameters H "blendMode" [VStr mode] ;;
   if mode_test k mode then this_renderer_blendMode mode
   else if String.eqb mode (NORMAL k) then
     modify (emit (EvWarn
       "NORMAL has been deprecated for use in blendMode. defaulting to BLEND instead.")) ;;
     this_renderer_blendMode (BLEND k)
   else throw (Error ("Mode " +:+ mode +:+ " not recognized."))).
Proof. reflexivity. Qed.

Lemma validate_ok H func args s :
  validate H func args = None → _validateParameters H func args s = Return tt s.
Proof. unfold _validateParameters. by intros ->. Qed.

Lemma bind_validate_ok {A} H func args (m : M A) s :
  validate H func args = None → (_validateParameters H func args ;; m) s = m s.
Proof. intros Hv. unfold bind. by rewrite validate_ok. Qed.

(** C5.  A mode that is none of the fourteen compositing tokens and is not
    [NORMAL] makes [blendMode] throw, and the state the call leaves is the
    state it found: nothing was forwarded to a renderer.  When the validator
    lets the call through, the error is [Error] with the message
    ['Mode ' + mode + ' not recognized.'], which holds the offending value. *)
Theorem blendMode_unsupported k H mode s :
  mode ∉ valid_modes k →
  mode ≠ NORMAL k →
  ∃ e, blendMode k H mode s = Throw e s ∧
       (validate H "blendMode" [VStr mode] = None →
        e = Error ("Mode " +:+ mode +:+ " not recognized.")).
Proof.
  intros Hmode Hnormal. rewrite blendMode_unfold.
  unfold bind, _validateParameters at 1.
  destruct (validate H "blendMode" [VStr mode]) as [msg|] eqn:Hv; cbn.
  - exists (ValidationError msg). split; [done|]. discriminate.
  - rewrite (mode_test_false _ _ Hmode).
    apply String.eqb_neq in Hnormal. rewrite Hnormal.
    eexists. split; [reflexivity|done].
Qed.

Lemma blendMode_unsupported_witness :
  ∃ e, blendMode token_constants quiet_host "bogus" empty_world = Throw e empty_world ∧
       (validate quiet_host "blendMode" [VStr "bogus"] = None →
        e = Error "Mode bogus not recognized.").
Proof.
  apply (blendMode_unsupported token_constants quiet_host "bogus" empty_world).
  - apply (bool_decide_unpack _). vm_compute. exact I.
  - discriminate.
Defined.

Lemma this_renderer_blendMode_some s g o mode :
  _renderer (this s) = Some g →
  renderers s !! g = Some o →
  this_renderer_blendMode mode s = Return tt (blended g mode s).
Proof.
  intros Hg Ho. unfold this_renderer_blendMode, Renderer_blendMode, bind, gets, modify.
  cbn. rewrite Hg. cbn. by rewrite Ho.
Qed.

Lemma this_renderer_blendMode_none s mode :
  _renderer (this s) = None →
  this_renderer_blendMode mode s =
  Throw (TypeError "Cannot read property 'blendMode' of undefined") s.
Proof.
  intros Hg. unfold this_renderer_blendMode, bind, gets, throw. cbn. by rewrite Hg.
Qed.

Lemma blended_active g o mode s :
  renderers s !! g = Some o →
  r_blendMode <$> renderers (blended g mode s) !! g = Some (Some mode).
Proof.
  intros Ho. cbn. rewrite list_lookup_alter_eq, Ho. done.
Qed.

(** C6.  With an active renderer [g], [blendMode] returns for each of the
    fourteen compositing tokens and forwards exactly that token to [g], whose
    active mode it becomes; [blendMode(NORMAL)] returns too, after a
    deprecation warning, and forwards [BLEND] in place of [NORMAL]. *)
Theorem blendMode_forwards k H s g o :
  _renderer (this s) = Some g →
  renderers s !! g = Some o →
  length (valid_modes k) = 14%nat ∧
  (∀ mode,
     mode ∈ valid_modes k →
     validate H "blendMode" [VStr mode] = None →
     blendMode k H mode s = Return tt (blended g mode s) ∧
     trace (blended g mode s) = trace s ++ [EvBlendMode g mode] ∧
     r_blendMode <$> renderers (blended g mode s) !! g = Some (Some mode)) ∧
  (NORMAL k ∉ valid_modes k →
   validate H "blendMode" [VStr (NORMAL k)] = None →
   let warned :=
     emit (EvWarn
       "NORMAL has been deprecated for use in blendMode. defaulting to BLEND instead.") s in
   blendMode k H (NORMAL k) s = Return tt (blended g (BLEND k) warned) ∧
   trace (blended g (BLEND k) warned) =
     trace s ++ [EvWarn
       "NORMAL has been deprecated for use in blendMode. defaulting to BLEND instead.";
       EvBlendMode g (BLEND k)] ∧
   r_blendMode <$> renderers (blended g (BLEND k) warned) !! g = Some (Some (BLEND k))).
Proof.
  intros Hg Ho. split; [reflexivity|]. split.
  - intros mode Hmode Hv. rewrite blendMode_unfold, bind_validate_ok by done.
    apply mode_test_spec in Hmode. rewrite Hmode.
    rewrite (this_renderer_blendMode_some _ _ _ _ Hg Ho).
    split; [done|]. split; [done|]. by eapply blended_active.
  - intros Hn Hv warned. rewrite blendMode_unfold, bind_validate_ok by done.
    rewrite (mode_test_false _ _ Hn), String.eqb_refl.
    unfold bind at 1. unfold modify at 1.
    rewrite (this_renderer_blendMode_some _ g o) by done.
    split; [done|]. split.
    + subst warned. cbn. by rewrite <- app_assoc.
    + by eapply blended_active.
Qed.

(** C10.  Without a renderer, [blendMode] with one of the fourteen tokens or
    with [NORMAL] throws a [TypeError]: it reads [this._renderer.blendMode]
    with no test of [this._renderer].  [resizeCanvas] and [noCanvas] test
    before they read, and return without any effect. *)
Theorem blendMode_needs_renderer k H s mode w h noRedraw :
  wf s →
  _renderer (this s) = None →
  mode ∈ valid_modes k ∨ mode = NORMAL k →
  validate H "blendMode" [VStr mode] = None →
  validate H "resizeCanvas" [VNum w; VNum h; VBool noRedraw] = None →
  (∃ s', blendMode k H mode s =
         Throw (TypeError "Cannot read property 'blendMode' of undefined") s') ∧
  resizeCanvas H w h noRedraw s = Return tt s ∧
  noCanvas s = Return tt s.
Proof.
  intros Hwf Hg Hmode Hv Hv'. unfold wf in Hwf. rewrite Hg in Hwf.
  destruct Hwf as [Hc _]. split; [|split].
  - rewrite blendMode_unfold, bind_validate_ok by done.
    destruct (mode_test k mode) eqn:Ht.
    + rewrite this_renderer_blendMode_none by done. eauto.
    + destruct Hmode as [Hmode| ->]; [apply mode_test_spec in Hmode; congruence|].
      rewrite String.eqb_refl. unfold bind at 1. unfold modify at 1.
      rewrite this_renderer_blendMode_none by done. eauto.
  - unfold resizeCanvas. rewrite bind_validate_ok by done.
    unfold bind, gets. by rewrite Hg.
  - unfold noCanvas, bind, gets. by rewrite Hc.
Qed.

Lemma blendMode_forwards_witness :
  blendMode token_constants quiet_host "MULTIPLY" canvas_world =
    Return tt (blended 0 "MULTIPLY" canvas_world) ∧
  blendMode token_constants quiet_host "NORMAL" canvas_world =
    Return tt (blended 0 "BLEND"
      (emit (EvWarn
         "NORMAL has been deprecated for use in blendMode. defaulting to BLEND instead.")
         canvas_world)).
Proof.
  edestruct (blendMode_forwards token_constants quiet_host canvas_world 0)
    as (_ & Hmode & Hnormal); [vm_compute; reflexivity ..|].
  split.
  - apply Hmode; [|reflexivity]. apply (bool_decide_unpack _). vm_compute. exact I.
  - apply Hnormal; [|reflexivity]. apply (bool_decide_unpack _). vm_compute. exact I.
Defined.

Lemma blendMode_needs_renderer_witness :
  (∃ s', blendMode token_constants quiet_host "ADD" empty_world =
         Throw (TypeError "Cannot read property 'blendMode' of undefined") s') ∧
  resizeCanvas quiet_host 640 480 false empty_world = Return tt empty_world ∧
  noCanvas empty_world = Return tt empty_world.
Proof.
  apply (blendMode_needs_renderer token_constants quiet_host empty_world "ADD").
  - split; reflexivity.
  - reflexivity.
  - left. apply (bool_decide_unpack _). vm_compute. exact I.
  - reflexivity.
  - reflexivity.
Defined.

(** ** The document *)

Lemma detach_not_in c l : Forall (λ cp, fst cp ≠ c) (detach c l).
Proof.
  apply Forall_forall. intros cp Hin. unfold detach in Hin.
  by apply list_elem_of_filter in Hin as [? _].
Qed.

Lemma parentNode_None d c :
  parentNode d c = None ↔ Forall (λ cp, fst cp ≠ c) (attached d).
Proof.
  unfold parentNode. rewrite fmap_None, list_find_None. done.
Qed.

Lemma parentNode_removed d c : parentNode (removeChild c d) c = None.
Proof. apply parentNode_None. cbn. apply detach_not_in. Qed.

Lemma parentNode_appended d p c : parentNode (appendChild p c d) c = Some p.
Proof.
  unfold parentNode. cbn.
  pose proof (detach_not_in c (attached d)) as Hno.
  induction (detach c (attached d)) as [|cp l IH]; cbn.
  - by rewrite decide_True.
  - apply Forall_cons in Hno as [Hcp Hl].
    rewrite decide_False by done.
    specialize (IH Hl). cbn in IH.
    destruct (list_find _ (l ++ [(c, p)])) as [[i x]|]; cbn in *; congruence.
Qed.

Lemma getElementById_has_id d id c :
  getElementById d id = Some c → has_id d id c ∧ is_Some (parentNode d c).
Proof.
  unfold getElementById. intros Hf.
  apply fmap_Some in Hf as ([i [c' p]] & Hf & ->). cbn.
  apply list_find_Some in Hf as (Hl & Hid & _). split; [done|].
  destruct (parentNode d c') eqn:Hp; [done|].
  apply parentNode_None in Hp.
  apply list_elem_of_lookup_2 in Hl.
  rewrite Forall_forall in Hp. by apply Hp in Hl.
Qed.

Lemma has_id_lt d id c : has_id d id c → (c < length (nodes d))%nat.
Proof.
  unfold has_id. intros Hid. apply lookup_lt_is_Some.
  destruct (nodes d !! c); [done|discriminate].
Qed.

(** ** [noCanvas] *)

Lemma noCanvas_attached s c p :
  canvas (this s) = Some c →
  parentNode (doc s) c = Some p →
  noCanvas s = Return tt (emit (EvRemoveChild p c) (with_doc (removeChild c) s)).
Proof.
  intros Hc Hp. unfold noCanvas, parentNode_removeChild, bind, gets, modify.
  rewrite Hc. cbn. by rewrite Hp.
Qed.

Lemma noCanvas_detached s c :
  canvas (this s) = Some c →
  parentNode (doc s) c = None →
  noCanvas s = Throw (TypeError "Cannot read property 'removeChild' of null") s.
Proof.
  intros Hc Hp. unfold noCanvas, parentNode_removeChild, bind, gets, throw.
  rewrite Hc. cbn. by rewrite Hp.
Qed.

(** The first [noCanvas] detaches an attached default surface and leaves the
    sketch's [canvas] pointing at it, so the next [noCanvas] passes the test
    [if (this.canvas)] and throws on the null [parentNode]. *)
Lemma noCanvas_then_noCanvas s c p :
  canvas (this s) = Some c →
  parentNode (doc s) c = Some p →
  ∃ s', noCanvas s = Return tt s' ∧
        parentNode (doc s') c = None ∧
        canvas (this s') = Some c ∧
        noCanvas s' = Throw (TypeError "Cannot read property 'removeChild' of null") s'.
Proof.
  intros Hc Hp. eexists. split; [by apply noCanvas_attached|].
  split; [apply parentNode_removed|]. split; [done|].
  apply (noCanvas_detached _ c); [done|apply parentNode_removed].
Qed.

(** C3.  On the sample sketch, [createCanvas(100, 100)] attaches the default
    surface (element 1) to the body; the first [noCanvas()] detaches it; the
    second [noCanvas()] does not return: it throws a [TypeError]. *)
Theorem noCanvas_twice_throws :
  ∃ s1 s2,
    createCanvas token_constants quiet_host 100 100 None empty_world = Return 0%nat s1 ∧
    canvas (this s1) = Some 1%nat ∧
    parentNode (doc s1) 1 = Some 0%nat ∧
    noCanvas s1 = Return tt s2 ∧
    parentNode (doc s2) 1 = None ∧
    noCanvas s2 = Throw (TypeError "Cannot read property 'removeChild' of null") s2.
Proof.
  destruct (createCanvas token_constants quiet_host 100 100 None empty_world)
    as [g s1|e s1] eqn:Hcreate; [|by vm_compute in Hcreate].
  assert (g = 0%nat ∧ canvas (this s1) = Some 1%nat ∧ parentNode (doc s1) 1 = Some 0%nat)
    as (-> & Hc & Hp).
  { vm_compute in Hcreate. injection Hcreate as <- <-. by vm_compute. }
  destruct (noCanvas_then_noCanvas s1 1 0 Hc Hp) as (s2 & H1 & H2 & _ & H3).
  by exists s1, s2.
Qed.

(** ** The renderer's methods *)

Lemma Renderer_resize_some H g o w h s :
  renderers s !! g = Some o →
  Renderer_resize H g w h s = Return tt (resized H g o w h s).
Proof.
  intros Ho. unfold Renderer_resize, bind, gets, modify, when. cbn. rewrite Ho.
  unfold resized. by destruct (isDefault o).
Qed.

Lemma Renderer_applyDefaults_some H g o s :
  renderers s !! g = Some o →
  Renderer_applyDefaults H g s = Return tt (defaulted H g o s).
Proof.
  intros Ho. unfold Renderer_applyDefaults, bind, gets, modify. cbn. by rewrite Ho.
Qed.

Lemma resized_renderers H g o w h s :
  renderers (resized H g o w h s) = alter (set_r_size w h) g (renderers s).
Proof. unfold resized. by destruct (isDefault o). Qed.

Lemma resized_elements H g o w h s :
  _elements (this (resized H g o w h s)) = _elements (this s).
Proof. unfold resized. by destruct (isDefault o). Qed.

Lemma resized_renderer H g o w h s :
  _renderer (this (resized H g o w h s)) = _renderer (this s).
Proof. unfold resized. by destruct (isDefault o). Qed.

Lemma resized_canvas H g o w h s :
  canvas (this (resized H g o w h s)) = canvas (this s).
Proof. unfold resized. by destruct (isDefault o). Qed.

Lemma resized_created H g o w h s :
  _defaultGraphicsCreated (this (resized H g o w h s)) = _defaultGraphicsCreated (this s).
Proof. unfold resized. by destruct (isDefault o). Qed.

Lemma resized_drawingContext H g o w h s :
  drawingContext (this (resized H g o w h s)) = drawingContext (this s).
Proof. unfold resized. by destruct (isDefault o). Qed.

Lemma resized_attached H g o w h s :
  attached (doc (resized H g o w h s)) = attached (doc s).
Proof. unfold resized. by destruct (isDefault o). Qed.

Lemma resized_nodes H g o w h s :
  nodes (doc (resized H g o w h s)) =
  alter (set_el_size w h) (owningSurface o) (nodes (doc s)).
Proof. unfold resized. by destruct (isDefault o). Qed.

Lemma resized_defaultId H g o w h s : defaultId (resized H g o w h s) = defaultId s.
Proof. unfold resized. by destruct (isDefault o). Qed.

Lemma resized_trace H g o w h s :
  trace (resized H g o w h s) = trace s ++ [EvResize g w h].
Proof. unfold resized. by destruct (isDefault o). Qed.

Lemma resized_contexts H g o w h s :
  contexts (resized H g o w h s) =
  alter (λ c, set_ctx_props (resized_props H (r_backend o) c w h) c) (r_context o)
        (contexts s).
Proof. unfold resized. by destruct (isDefault o). Qed.

Lemma resized_size H g o w h s :
  renderers s !! g = Some o →
  renderers (resized H g o w h s) !! g = Some (set_r_size w h o).
Proof. intros Ho. by rewrite resized_renderers, list_lookup_alter_eq, Ho. Qed.

(** ** [resizeCanvas] *)

(** A turn of the loop never throws: the [catch] swallows the [TypeError] of
    a protected property. *)
Lemma restore_turn key val s :
  catch (assign_property key val) (λ err, ret tt) s = Return tt (assigned key val s).
Proof.
  unfold catch, assign_property, assigned, bind, gets, modify, throw, ret.
  destruct (drawingContext (this s)) as [i|]; cbn; [|done].
  destruct (contexts s !! i) as [c|]; cbn; [|done].
  by destruct (bool_decide (key ∈ ctx_readonly c)).
Qed.

Lemma restore_loop props s :
  for_each props (λ saved, catch (assign_property (fst saved) (snd saved))
                                 (λ err, ret tt)) s
  = Return tt (restored props s).
Proof.
  revert s. induction props as [|[key val] props IH]; intros s; [done|].
  cbn [for_each]. unfold bind. rewrite restore_turn. apply IH.
Qed.

(** The loop touches nothing but the contexts. *)
Lemma assigned_frame key val s :
  doc (assigned key val s) = doc s ∧
  renderers (assigned key val s) = renderers s ∧
  defaultId (assigned key val s) = defaultId s ∧
  this (assigned key val s) = this s ∧
  trace (assigned key val s) = trace s.
Proof.
  unfold assigned.
  destruct (drawingContext (this s)) as [i|]; [|done].
  destruct (contexts s !! i) as [c|]; [|done].
  by destruct (bool_decide (key ∈ ctx_readonly c)).
Qed.

Lemma restored_frame props s :
  doc (restored props s) = doc s ∧
  renderers (restored props s) = renderers s ∧
  defaultId (restored props s) = defaultId s ∧
  this (restored props s) = this s ∧
  trace (restored props s) = trace s.
Proof.
  revert s. induction props as [|[key val] props IH]; intros s; [done|].
  change (restored ((key, val) :: props) s) with (restored props (assigned key val s)).
  destruct (IH (assigned key val s)) as (-> & -> & -> & -> & ->).
  apply assigned_frame.
Qed.

Lemma assigned_context key val s i c :
  drawingContext (this s) = Some i →
  contexts s !! i = Some c →
  contexts (assigned key val s) !! i =
    Some (if bool_decide (key ∈ ctx_readonly c) then c
          else set_ctx_props (<[key:=val]> (ctx_props c)) c).
Proof.
  intros Hi Hc. unfold assigned. rewrite Hi, Hc.
  destruct (bool_decide (key ∈ ctx_readonly c)); [done|].
  cbn. by rewrite list_lookup_alter_eq, Hc.
Qed.

(** After the loop, the context holds every saved value under a key the
    backend does not protect, and is as it was under the protected keys and
    under the keys that were not saved. *)
Lemma restored_context props s i c :
  drawingContext (this s) = Some i →
  contexts s !! i = Some c →
  NoDup (props.*1) →
  ∃ c', contexts (restored props s) !! i = Some c' ∧
        ctx_readonly c' = ctx_readonly c ∧
        (∀ key val, (key, val) ∈ props → key ∉ ctx_readonly c →
                    ctx_props c' !! key = Some val) ∧
        (∀ key, key ∈ ctx_readonly c ∨ key ∉ props.*1 →
                ctx_props c' !! key = ctx_props c !! key).
Proof.
  revert s c. induction props as [|[k v] props IH]; intros s c Hi Hc Hnd.
  { exists c. split; [done|]. split; [done|]. split; [|done].
    intros ?? Hin. by apply elem_of_nil in Hin. }
  cbn in Hnd. apply NoDup_cons in Hnd as [Hk Hnd].
  pose proof (assigned_context k v s i c Hi Hc) as Hc1.
  assert (drawingContext (this (assigned k v s)) = Some i) as Hi1.
  { destruct (assigned_frame k v s) as (_ & _ & _ & -> & _). done. }
  destruct (IH _ _ Hi1 Hc1 Hnd) as (c' & Hc' & Hro & Hsaved & Hkept).
  assert (ctx_readonly (if bool_decide (k ∈ ctx_readonly c) then c
                        else set_ctx_props (<[k:=v]> (ctx_props c)) c)
          = ctx_readonly c) as Hro1 by (by case_bool_decide).
  rewrite Hro1 in *.
  exists c'. split; [done|]. split; [done|]. split.
  - intros key val Hin Hw. apply elem_of_cons in Hin as [Heq|Hin]; [|by apply Hsaved].
    injection Heq as -> ->. rewrite Hkept by (by right).
    rewrite bool_decide_false by done. cbn. by rewrite lookup_insert_eq.
  - intros key Hkey. cbn in Hkey. rewrite not_elem_of_cons in Hkey.
    rewrite Hkept by tauto.
    case_bool_decide as Hkro; [done|]. cbn.
    destruct Hkey as [Hkey|[Hne _]]; [|by rewrite lookup_insert_ne].
    destruct (decide (k = key)) as [->|Hne]; [done|by rewrite lookup_insert_ne].
Qed.

(** What is saved: the scalar properties of the sketch's drawing context. *)
Lemma saved_props_lookup s i c key val :
  drawingContext (this s) = Some i →
  contexts s !! i = Some c →
  saved_props s !! key = Some val ↔ ctx_props c !! key = Some val ∧ is_scalar val = true.
Proof.
  intros Hi Hc. unfold saved_props. rewrite Hi. cbn. rewrite Hc. cbn.
  by rewrite map_lookup_filter_Some.
Qed.

Lemma resizeCanvas_unfold H w h noRedraw s g o :
  validate H "resizeCanvas" [VNum w; VNum h; VBool noRedraw] = None →
  _renderer (this s) = Some g →
  renderers s !! g = Some o →
  resizeCanvas H w h noRedraw s =
  when (negb noRedraw) (redraw H)
       (restored (map_to_list (saved_props s))
                 (with_this (set_size w h) (resized H g o w h s))).
Proof.
  intros Hv Hg Ho. unfold resizeCanvas. rewrite bind_validate_ok by done.
  unfold bind at 1. unfold gets at 1. rewrite Hg.
  unfold bind at 1. unfold gets at 1. fold (saved_props s).
  unfold bind at 1. rewrite (Renderer_resize_some _ _ _ _ _ _ Ho).
  unfold bind at 1. unfold modify at 1.
  unfold bind. by rewrite restore_loop.
Qed.




(** ** The backend requested *)

Lemma requested_3d k renderer :
  requested k renderer = Accelerated3D ↔
  String.eqb (or_default renderer (P2D k)) (WEBGL k) = true.
Proof. unfold requested. by destruct (String.eqb _ _). Qed.

Lemma requested_2d k renderer :
  requested k renderer = Rasterized2D ↔
  String.eqb (or_default renderer (P2D k)) (WEBGL k) = false.
Proof. unfold requested. by destruct (String.eqb _ _). Qed.


Ltac run :=
  cbv [bind gets modify ret throw when node_of node_appendChild document_createElement
       elements_push elements_filter parentNode_removeChild new_Renderer].

(** ** The scanning loop *)

Lemma list_find_ext_in {A} (P Q : A → Prop) `{∀ x, Decision (P x)} `{∀ x, Decision (Q x)}
    (l : list A) :
  (∀ x, x ∈ l → P x ↔ Q x) → list_find P l = list_find Q l.
Proof.
  induction l as [|x l IH]; intros HPQ; [done|]. cbn.
  rewrite (decide_ext (P x) (Q x)) by (apply HPQ; left).
  rewrite IH; [done|]. intros y Hy. apply HPQ. by right.
Qed.

Lemma getElementById_ext d d' id :
  attached d' = attached d →
  (∀ c p, (c, p) ∈ attached d → has_id d' id c ↔ has_id d id c) →
  getElementById d' id = getElementById d id.
Proof.
  intros Ha Hid. unfold getElementById. rewrite Ha. f_equal.
  apply list_find_ext_in. intros [c p] Hin. by apply (Hid c p).
Qed.

Lemma slot_id_inj i j : slot_id i = slot_id j → i = j.
Proof. unfold slot_id. intros Heq. by simplify_eq/=. Qed.


Lemma has_id_createElement d id c :
  id ≠ EmptyString →
  has_id (snd (createElement d)) id c ↔ has_id d id c.
Proof.
  intros Hid. unfold has_id. cbn.
  destruct (decide (c < length (nodes d))%nat) as [Hlt|Hge].
  - by rewrite lookup_app_l.
  - rewrite lookup_app_r by lia. rewrite (lookup_ge_None_2 (nodes d)) by lia.
    destruct (c - length (nodes d))%nat; cbn; [|done].
    split; [|done]. intros [= Heq]. done.
Qed.

Lemma getElementById_createElement d id :
  id ≠ EmptyString →
  getElementById (snd (createElement d)) id = getElementById d id.
Proof.
  intros Hid. apply getElementById_ext; [done|].
  intros c p _. by apply has_id_createElement.
Qed.

Lemma scan_ids_createElement fuel d i :
  scan_ids fuel (snd (createElement d)) i = scan_ids fuel d i.
Proof.
  revert i. induction fuel as [|fuel IH]; intros i; [done|].
  cbn [scan_ids]. rewrite getElementById_createElement by done.
  by rewrite IH.
Qed.

Lemma scan_ids_Some fuel d i0 i :
  scan_ids fuel d i0 = Some i →
  (i0 ≤ i)%nat ∧ getElementById d (slot_id i) = None ∧
  ∀ j, (i0 ≤ j < i)%nat → is_Some (getElementById d (slot_id j)).
Proof.
  revert i0. induction fuel as [|fuel IH]; intros i0 Hscan; [done|].
  cbn [scan_ids] in Hscan. fold (slot_id i0) in Hscan.
  destruct (getElementById d (slot_id i0)) as [c|] eqn:Hc.
  - apply IH in Hscan as (Hle & Hnone & Hused). split; [lia|]. split; [done|].
    intros j Hj. destruct (decide (j = i0)) as [->|Hne]; [by rewrite Hc|].
    apply Hused. lia.
  - injection Hscan as <-. split; [done|]. split; [done|]. intros j Hj. lia.
Qed.

Lemma scan_ids_None fuel d i0 :
  scan_ids fuel d i0 = None →
  ∀ j, (i0 ≤ j < i0 + fuel)%nat → is_Some (getElementById d (slot_id j)).
Proof.
  revert i0. induction fuel as [|fuel IH]; intros i0 Hscan j Hj; [lia|].
  cbn [scan_ids] in Hscan. fold (slot_id i0) in Hscan.
  destruct (getElementById d (slot_id i0)) as [c|] eqn:Hc; [|done].
  destruct (decide (j = i0)) as [->|Hne]; [by rewrite Hc|].
  apply (IH (S i0)); [done|lia].
Qed.

(** The document has fewer elements than there are slots up to its size: one
    of them is free. *)
Lemma slots_run_out d :
  ¬ ∀ j, (j < S (length (attached d)))%nat → is_Some (getElementById d (slot_id j)).
Proof.
  intros Hall.
  set (found j := default O (fst <$> list_find (λ cp, has_id d (slot_id j) (fst cp))
                                               (attached d))).
  assert (∀ j, (j < S (length (attached d)))%nat →
               ∃ cp, attached d !! found j = Some cp ∧ has_id d (slot_id j) (fst cp))
    as Hfound.
  { intros j Hj. destruct (Hall j Hj) as [c Hc]. unfold getElementById in Hc.
    apply fmap_Some in Hc as ([i cp] & Hfind & _).
    unfold found. rewrite Hfind. cbn.
    apply list_find_Some in Hfind as (Hl & Hid & _). by exists cp. }
  assert (NoDup (found <$> seq 0 (S (length (attached d))))) as Hnd.
  { apply NoDup_fmap_2_strong; [|apply NoDup_seq].
    intros i j Hi Hj Heq. apply elem_of_seq in Hi, Hj.
    destruct (Hfound i) as (cp & Hl & Hid); [lia|].
    destruct (Hfound j) as (cp' & Hl' & Hid'); [lia|].
    rewrite Heq in Hl. rewrite Hl in Hl'. injection Hl' as <-.
    apply slot_id_inj. unfold has_id in *. congruence. }
  apply NoDup_submseteq with (k := seq 0 (length (attached d))) in Hnd.
  - apply submseteq_length in Hnd. rewrite length_fmap, !length_seq in Hnd. lia.
  - intros x Hx. apply list_elem_of_fmap in Hx as (j & -> & Hj).
    apply elem_of_seq in Hj. destruct (Hfound j) as (cp & Hl & _); [lia|].
    apply elem_of_seq. apply lookup_lt_Some in Hl. lia.
Qed.

(** The loop of [createCanvas] terminates, on the least free slot. *)
Lemma scan_ids_total d :
  ∃ i, scan_ids (S (length (attached d))) d 0 = Some i ∧ free_slot d i.
Proof.
  destruct (scan_ids (S (length (attached d))) d 0) as [i|] eqn:Hscan.
  - exists i. split; [done|]. apply scan_ids_Some in Hscan as (_ & Hnone & Hused).
    split; [done|]. intros j Hj. apply Hused. lia.
  - exfalso. apply (slots_run_out d). intros j Hj.
    apply (scan_ids_None _ _ _ Hscan). lia.
Qed.

(** ** [createCanvas], block by block *)

Lemma createCanvas_unfold k H w h renderer :
  createCanvas k H w h renderer =
  (_validateParameters H "createCanvas" ([VNum w; VNum h] ++ optional_arg renderer) ;;
   let* c := if String.eqb (or_default renderer (P2D k)) (WEBGL k)
             then surface_3d else surface_2d in
   hide_in_setup c ;;
   append_to_container c ;;
   (if String.eqb (or_default renderer (P2D k)) (WEBGL k)
    then renderer_3d H c else renderer_2d H c) ;;
   finish H w h).
Proof. reflexivity. Qed.

Lemma bind_Return {A B} (m : M A) (k : A → M B) s a s' :
  m s = Return a s' → bind m k s = k a s'.
Proof. unfold bind. by intros ->. Qed.


Lemma surface_3d_replace s c p :
  getElementById (doc s) (defaultId s) = Some c →
  parentNode (doc s) c = Some p →
  surface_3d s =
  Return (Some (length (nodes (doc s)))) (with_canvas (defaultId s) (torn_down c p s)).
Proof.
  intros Hc Hp. unfold surface_3d. run. rewrite Hc. cbn. rewrite Hp. reflexivity.
Qed.

Lemma surface_3d_fresh s :
  getElementById (doc s) (defaultId s) = None →
  surface_3d s = Return (Some (length (nodes (doc s)))) (with_canvas (defaultId s) s).
Proof.
  intros Hc. unfold surface_3d. run. rewrite Hc. reflexivity.
Qed.

Lemma surface_2d_first s i :
  _defaultGraphicsCreated (this s) = false →
  scan_ids (S (length (attached (doc s)))) (doc s) 0 = Some i →
  surface_2d s =
  Return (Some (length (nodes (doc s))))
         (with_canvas (slot_id i) (with_defaultId (slot_id i) s)).
Proof.
  intros Hcreated Hi. unfold surface_2d. run. rewrite Hcreated.
  cbn [negb doc with_doc emit attached createElement snd fst].
  change (Document (nodes (doc s) ++ [blank_canvas]) (attached (doc s)) (body (doc s)))
    with (snd (createElement (doc s))).
  rewrite scan_ids_createElement, Hi. reflexivity.
Qed.

Lemma surface_2d_again s :
  _defaultGraphicsCreated (this s) = true →
  surface_2d s = Return (canvas (this s)) s.
Proof. intros Hcreated. unfold surface_2d. run. by rewrite Hcreated. Qed.

Lemma present_some {A} c (m : M A) s :
  (hide_in_setup (Some c) ;; append_to_container (Some c) ;; m) s = m (presented c s).
Proof.
  unfold hide_in_setup, append_to_container, presented, container. run.
  destruct (_setupDone (this s)); cbn; by destruct (_userNode (this s)).
Qed.

Lemma renderer_3d_some H c s :
  renderer_3d H (Some c) s = Return tt (with_renderer H Accelerated3D c s).
Proof. reflexivity. Qed.

Lemma renderer_2d_first H c s :
  _defaultGraphicsCreated (this s) = false →
  renderer_2d H (Some c) s = Return tt (with_renderer H Rasterized2D c s).
Proof. intros Hcreated. unfold renderer_2d. run. by rewrite Hcreated. Qed.

Lemma renderer_2d_again H c s :
  _defaultGraphicsCreated (this s) = true →
  renderer_2d H c s = Return tt s.
Proof. intros Hcreated. unfold renderer_2d. run. by rewrite Hcreated. Qed.

Lemma finish_some H w h s g o :
  _renderer (this s) = Some g →
  renderers s !! g = Some o →
  finish H w h s = Return g (sized H g o w h s).
Proof.
  intros Hg Ho. unfold finish. run. rewrite Hg.
  rewrite (Renderer_resize_some _ _ _ _ _ _ Ho).
  erewrite Renderer_applyDefaults_some by (by apply resized_size).
  reflexivity.
Qed.

(** ** [createCanvas], path by path *)

Lemma with_renderer_renderer H b c s :
  _renderer (this (with_renderer H b c s)) = Some (length (renderers s)).
Proof. unfold with_renderer. by destruct (decide (b = Rasterized2D)). Qed.

Lemma with_renderer_renderers H b c s :
  renderers (with_renderer H b c s) = renderers s ++ [new_object b c true s].
Proof. unfold with_renderer. by destruct (decide (b = Rasterized2D)). Qed.

Lemma with_renderer_object H b c s :
  renderers (with_renderer H b c s) !! length (renderers s)
  = Some (new_object b c true s).
Proof. rewrite with_renderer_renderers. by apply list_lookup_middle. Qed.

Lemma with_renderer_elements H b c s :
  _elements (this (with_renderer H b c s)) = _elements (this s) ++ [length (renderers s)].
Proof. unfold with_renderer. by destruct (decide (b = Rasterized2D)). Qed.

Lemma with_renderer_canvas H b c s : canvas (this (with_renderer H b c s)) = Some c.
Proof. unfold with_renderer. by destruct (decide (b = Rasterized2D)). Qed.

Lemma with_renderer_doc H b c s : doc (with_renderer H b c s) = doc s.
Proof. unfold with_renderer. by destruct (decide (b = Rasterized2D)). Qed.

Lemma with_renderer_defaultId H b c s : defaultId (with_renderer H b c s) = defaultId s.
Proof. unfold with_renderer. by destruct (decide (b = Rasterized2D)). Qed.

Lemma with_renderer_trace H b c s :
  trace (with_renderer H b c s) =
  trace s ++ [EvNew (length (renderers s)) b c true; EvElementsPush (length (renderers s))].
Proof.
  unfold with_renderer. destruct (decide (b = Rasterized2D)); cbn; by rewrite <- app_assoc.
Qed.

Lemma with_renderer_created H b c s :
  _defaultGraphicsCreated (this (with_renderer H b c s)) =
  if decide (b = Rasterized2D) then true else _defaultGraphicsCreated (this s).
Proof. unfold with_renderer. by destruct (decide (b = Rasterized2D)). Qed.

Lemma presented_renderers c s : renderers (presented c s) = renderers s.
Proof. unfold presented. by destruct (_setupDone (this s)). Qed.

Lemma presented_contexts c s : contexts (presented c s) = contexts s.
Proof. unfold presented. by destruct (_setupDone (this s)). Qed.

Lemma presented_this c s : this (presented c s) = this s.
Proof. unfold presented. by destruct (_setupDone (this s)). Qed.

Lemma presented_defaultId c s : defaultId (presented c s) = defaultId s.
Proof. unfold presented. by destruct (_setupDone (this s)). Qed.

Lemma presented_trace c s :
  trace (presented c s) = trace s ++ [EvAppendChild (container s) c].
Proof. unfold presented. by destruct (_setupDone (this s)). Qed.

Lemma presented_attached c s :
  attached (doc (presented c s)) = detach c (attached (doc s)) ++ [(c, container s)].
Proof. unfold presented. by destruct (_setupDone (this s)). Qed.

Lemma presented_nodes c s :
  nodes (doc (presented c s)) =
  if _setupDone (this s) then nodes (doc s) else alter hide c (nodes (doc s)).
Proof. unfold presented. by destruct (_setupDone (this s)). Qed.

Lemma finish_new H b c w h s g :
  g = length (renderers s) →
  finish H w h (with_renderer H b c (presented c s)) =
  Return g (sized H g (new_object b c true (presented c s)) w h
                  (with_renderer H b c (presented c s))).
Proof.
  intros ->. apply finish_some.
  - by rewrite with_renderer_renderer, presented_renderers.
  - rewrite <- (presented_renderers c s) at 1. apply with_renderer_object.
Qed.

(** The WEBGL branch when an element is found under [defaultId]. *)
Lemma createCanvas_3d_replace k H w h renderer s c p :
  validate H "createCanvas" ([VNum w; VNum h] ++ optional_arg renderer) = None →
  requested k renderer = Accelerated3D →
  getElementById (doc s) (defaultId s) = Some c →
  parentNode (doc s) c = Some p →
  let c' := length (nodes (doc s)) in
  let s1 := presented c' (with_canvas (defaultId s) (torn_down c p s)) in
  createCanvas k H w h renderer s =
  Return (length (renderers s))
         (sized H (length (renderers s)) (new_object Accelerated3D c' true s1) w h
                (with_renderer H Accelerated3D c' s1)).
Proof.
  intros Hv Hr Hc Hp c' s1. apply requested_3d in Hr.
  rewrite createCanvas_unfold, bind_validate_ok by done. rewrite Hr.
  erewrite bind_Return by (by apply surface_3d_replace).
  rewrite present_some. erewrite bind_Return by apply renderer_3d_some.
  subst s1. by apply finish_new.
Qed.

(** The WEBGL branch when no element is found under [defaultId]. *)
Lemma createCanvas_3d_fresh k H w h renderer s :
  validate H "createCanvas" ([VNum w; VNum h] ++ optional_arg renderer) = None →
  requested k renderer = Accelerated3D →
  getElementById (doc s) (defaultId s) = None →
  let c' := length (nodes (doc s)) in
  let s1 := presented c' (with_canvas (defaultId s) s) in
  createCanvas k H w h renderer s =
  Return (length (renderers s))
         (sized H (length (renderers s)) (new_object Accelerated3D c' true s1) w h
                (with_renderer H Accelerated3D c' s1)).
Proof.
  intros Hv Hr Hc c' s1. apply requested_3d in Hr.
  rewrite createCanvas_unfold, bind_validate_ok by done. rewrite Hr.
  erewrite bind_Return by (by apply surface_3d_fresh).
  rewrite present_some. erewrite bind_Return by apply renderer_3d_some.
  subst s1. by apply finish_new.
Qed.

(** The P2D branch before any 2D canvas was created. *)
Lemma createCanvas_2d_first k H w h renderer s :
  validate H "createCanvas" ([VNum w; VNum h] ++ optional_arg renderer) = None →
  requested k renderer = Rasterized2D →
  _defaultGraphicsCreated (this s) = false →
  ∃ i, free_slot (doc s) i ∧
    let c' := length (nodes (doc s)) in
    let s1 := presented c' (with_canvas (slot_id i) (with_defaultId (slot_id i) s)) in
    createCanvas k H w h renderer s =
    Return (length (renderers s))
           (sized H (length (renderers s)) (new_object Rasterized2D c' true s1) w h
                  (with_renderer H Rasterized2D c' s1)).
Proof.
  intros Hv Hr Hcreated. apply requested_2d in Hr.
  destruct (scan_ids_total (doc s)) as (i & Hscan & Hfree).
  exists i. split; [done|]. intros c' s1.
  rewrite createCanvas_unfold, bind_validate_ok by done. rewrite Hr.
  erewrite bind_Return by (by apply surface_2d_first).
  rewrite present_some.
  erewrite bind_Return by (apply renderer_2d_first; by rewrite presented_this).
  subst s1. by apply finish_new.
Qed.

(** The P2D branch once a 2D canvas was created. *)
Lemma createCanvas_2d_again k H w h renderer s c g o :
  validate H "createCanvas" ([VNum w; VNum h] ++ optional_arg renderer) = None →
  requested k renderer = Rasterized2D →
  _defaultGraphicsCreated (this s) = true →
  canvas (this s) = Some c →
  _renderer (this s) = Some g →
  renderers s !! g = Some o →
  createCanvas k H w h renderer s = Return g (sized H g o w h (presented c s)).
Proof.
  intros Hv Hr Hcreated Hc Hg Ho. apply requested_2d in Hr.
  rewrite createCanvas_unfold, bind_validate_ok by done. rewrite Hr.
  erewrite bind_Return by (by apply surface_2d_again). rewrite Hc.
  rewrite present_some.
  erewrite bind_Return by (apply renderer_2d_again; by rewrite presented_this).
  apply finish_some; [by rewrite presented_this|by rewrite presented_renderers].
Qed.

(** ** The closing lines *)

Lemma sized_trace H g o w h s :
  trace (sized H g o w h s) = trace s ++ [EvResize g w h; EvApplyDefaults g].
Proof.
  change (trace (sized H g o w h s))
    with (trace (resized H g o w h s) ++ [EvApplyDefaults g]).
  by rewrite resized_trace, <- app_assoc.
Qed.

Lemma sized_renderers H g o w h s :
  renderers (sized H g o w h s) = alter (set_r_size w h) g (renderers s).
Proof. apply (resized_renderers H g o w h s). Qed.

Lemma sized_renderer H g o w h s :
  _renderer (this (sized H g o w h s)) = _renderer (this s).
Proof. apply (resized_renderer H g o w h s). Qed.

Lemma sized_elements H g o w h s :
  _elements (this (sized H g o w h s)) = _elements (this s).
Proof. apply (resized_elements H g o w h s). Qed.

Lemma sized_canvas H g o w h s : canvas (this (sized H g o w h s)) = canvas (this s).
Proof. apply (resized_canvas H g o w h s). Qed.

Lemma sized_created H g o w h s :
  _defaultGraphicsCreated (this (sized H g o w h s)) = _defaultGraphicsCreated (this s).
Proof. apply (resized_created H g o w h s). Qed.

Lemma sized_defaultId H g o w h s : defaultId (sized H g o w h s) = defaultId s.
Proof. apply (resized_defaultId H g o w h s). Qed.

Lemma sized_attached H g o w h s :
  attached (doc (sized H g o w h s)) = attached (doc s).
Proof. apply (resized_attached H g o w h s). Qed.

Lemma sized_nodes H g o w h s :
  nodes (doc (sized H g o w h s)) =
  alter (set_el_size w h) (owningSurface o) (nodes (doc s)).
Proof. apply (resized_nodes H g o w h s). Qed.

Lemma sized_size H g o w h s :
  renderers s !! g = Some o →
  renderers (sized H g o w h s) !! g = Some (set_r_size w h o).
Proof. intros Ho. by rewrite sized_renderers, list_lookup_alter_eq, Ho. Qed.

Lemma sized_public_size H g o w h s :
  isDefault o = true →
  width (this (sized H g o w h s)) = w ∧ height (this (sized H g o w h s)) = h.
Proof. intros Hd. unfold sized, resized. cbn. by rewrite Hd. Qed.

Lemma parentNode_ext d d' c : attached d' = attached d → parentNode d' c = parentNode d c.
Proof. unfold parentNode. by intros ->. Qed.

Lemma lookup_alter_el_id (f : element → element) i j (l : list element) :
  (∀ e, el_id (f e) = el_id e) →
  el_id <$> alter f i l !! j = el_id <$> l !! j.
Proof.
  intros Hf. destruct (decide (i = j)) as [->|Hne].
  - rewrite list_lookup_alter_eq. destruct (l !! j); cbn; by rewrite ?Hf.
  - by rewrite list_lookup_alter_ne.
Qed.




(** ** What [createCanvas] returns *)

Lemma sized_report H g o w h s :
  _renderer (this s) = Some g →
  renderers s !! g = Some o →
  isDefault o = true →
  _renderer (this (sized H g o w h s)) = Some g ∧
  r_width <$> renderers (sized H g o w h s) !! g = Some w ∧
  r_height <$> renderers (sized H g o w h s) !! g = Some h ∧
  width (this (sized H g o w h s)) = w ∧
  height (this (sized H g o w h s)) = h.
Proof.
  intros Hg Ho Hd. rewrite sized_renderer, (sized_size _ _ _ _ _ _ Ho).
  destruct (sized_public_size H g o w h s Hd) as [-> ->]. done.
Qed.

Lemma new_report H b c w h s :
  let g := length (renderers s) in
  let s' := sized H g (new_object b c true (presented c s)) w h
                  (with_renderer H b c (presented c s)) in
  _renderer (this s') = Some g ∧
  r_width <$> renderers s' !! g = Some w ∧
  r_height <$> renderers s' !! g = Some h ∧
  width (this s') = w ∧
  height (this s') = h.
Proof.
  intros g s'. subst s' g. apply sized_report; [| |done].
  - by rewrite with_renderer_renderer, presented_renderers.
  - rewrite <- (presented_renderers c s) at 1. apply with_renderer_object.
Qed.

Ltac events Hin :=
  repeat (apply elem_of_cons in Hin as [Hin|Hin];
          [try discriminate Hin; try (injection Hin as -> -> -> ->)|]);
  try (by apply elem_of_nil in Hin).

(** C7.  When the validator lets the call through, [createCanvas] returns a
    renderer [g]: the trace of the call ends with [resize(w, h)] and then
    [_applyDefaults()] on [g]; a renderer the call constructs is [g], a
    default renderer of the backend asked for, and the call constructs one
    unless it is the P2D branch reusing the canvas; [g] is the sketch's
    renderer and reports [w] by [h], as does the sketch. *)
Theorem createCanvas_resizes_and_returns k H w h renderer s :
  validate H "createCanvas" ([VNum w; VNum h] ++ optional_arg renderer) = None →
  wf s →
  ∃ g s' mid,
    createCanvas k H w h renderer s = Return g s' ∧
    trace s' = trace s ++ mid ++ [EvResize g w h; EvApplyDefaults g] ∧
    (∀ g' b c main,
       EvNew g' b c main ∈ mid →
       g' = g ∧ b = requested k renderer ∧ main = true ∧ renderers s !! g = None) ∧
    (requested k renderer = Accelerated3D ∨ _defaultGraphicsCreated (this s) = false →
     ∃ c, EvNew g (requested k renderer) c true ∈ mid) ∧
    _renderer (this s') = Some g ∧
    r_width <$> renderers s' !! g = Some w ∧
    r_height <$> renderers s' !! g = Some h ∧
    width (this s') = w ∧
    height (this s') = h.
Proof.
  intros Hv Hwf.
  assert (renderers s !! length (renderers s) = None) as Hnew
    by (by apply lookup_ge_None_2).
  destruct (requested k renderer) eqn:Hr.
  - destruct (_defaultGraphicsCreated (this s)) eqn:Hcreated.
    + unfold wf in Hwf. destruct (_renderer (this s)) as [g|] eqn:Hg;
        [|destruct Hwf; congruence].
      destruct Hwf as (o & Ho & Hd & Hc & _).
      exists g. eexists. exists [EvAppendChild (container s) (owningSurface o)].
      split; [by eapply createCanvas_2d_again|].
      split; [by rewrite sized_trace, presented_trace, <- app_assoc|].
      split; [intros g' b c main Hin; events Hin|].
      split; [intros [?|?]; congruence|].
      apply sized_report; [by rewrite presented_this|by rewrite presented_renderers|done].
    + destruct (createCanvas_2d_first k H w h renderer s Hv Hr Hcreated)
        as (i & _ & Hcall). cbv zeta in Hcall.
      eexists. eexists.
      exists [EvCreateElement (length (nodes (doc s)));
              EvAppendChild (container s) (length (nodes (doc s)));
              EvNew (length (renderers s)) Rasterized2D (length (nodes (doc s))) true;
              EvElementsPush (length (renderers s))].
      split; [exact Hcall|].
      split.
      { rewrite sized_trace, with_renderer_trace, presented_trace, presented_renderers.
        cbn. by rewrite <- !app_assoc. }
      split; [intros g' b c main Hin; by events Hin|].
      split; [intros _; exists (length (nodes (doc s))); rewrite !elem_of_cons; naive_solver|].
      exact (new_report H Rasterized2D (length (nodes (doc s))) w h
               (with_canvas (slot_id i) (with_defaultId (slot_id i) s))).
  - destruct (getElementById (doc s) (defaultId s)) as [c|] eqn:Hc.
    + destruct (getElementById_has_id _ _ _ Hc) as [_ [p Hp]].
      eexists. eexists.
      exists [EvRemoveChild p c; EvElementsFilter (_renderer (this s));
              EvCreateElement (length (nodes (doc s)));
              EvAppendChild (container s) (length (nodes (doc s)));
              EvNew (length (renderers s)) Accelerated3D (length (nodes (doc s))) true;
              EvElementsPush (length (renderers s))].
      split; [by apply createCanvas_3d_replace|].
      split.
      { rewrite sized_trace, with_renderer_trace, presented_trace, presented_renderers.
        cbn. by rewrite <- !app_assoc. }
      split; [intros g' b c0 main Hin; by events Hin|].
      split; [intros _; exists (length (nodes (doc s))); rewrite !elem_of_cons; naive_solver|].
      exact (new_report H Accelerated3D (length (nodes (doc s))) w h
               (with_canvas (defaultId s) (torn_down c p s))).
    + eexists. eexists.
      exists [EvCreateElement (length (nodes (doc s)));
              EvAppendChild (container s) (length (nodes (doc s)));
              EvNew (length (renderers s)) Accelerated3D (length (nodes (doc s))) true;
              EvElementsPush (length (renderers s))].
      split; [by apply createCanvas_3d_fresh|].
      split.
      { rewrite sized_trace, with_renderer_trace, presented_trace, presented_renderers.
        cbn. by rewrite <- !app_assoc. }
      split; [intros g' b c main Hin; by events Hin|].
      split; [intros _; exists (length (nodes (doc s))); rewrite !elem_of_cons; naive_solver|].
      exact (new_report H Accelerated3D (length (nodes (doc s))) w h
               (with_canvas (defaultId s) s)).
Qed.

Lemma createCanvas_resizes_and_returns_witness :
  ∃ g s', createCanvas token_constants quiet_host 640 480 None empty_world = Return g s' ∧
          r_width <$> renderers s' !! g = Some 640 ∧
          r_height <$> renderers s' !! g = Some 480.
Proof.
  destruct (createCanvas_resizes_and_returns token_constants quiet_host 640 480 None
              empty_world)
    as (g & s' & mid & Hcall & _ & _ & _ & _ & Hw & Hh & _).
  - reflexivity.
  - split; reflexivity.
  - exists g, s'. split; [exact Hcall|]. split; [exact Hw|exact Hh].
Defined.

(** ** Reusing the 2D canvas *)

Lemma el_id_set_el_size w h e : el_id (set_el_size w h e) = el_id e.
Proof. done. Qed.

Lemma el_id_hide e : el_id (hide e) = el_id e.
Proof. done. Qed.

Lemma el_id_classList_add cls e : el_id (classList_add cls e) = el_id e.
Proof. done. Qed.

(** Neither showing a surface nor the closing lines change an id. *)
Lemma sized_presented_el_id H g o w h c s j :
  el_id <$> nodes (doc (sized H g o w h (presented c s))) !! j
  = el_id <$> nodes (doc s) !! j.
Proof.
  rewrite sized_nodes, presented_nodes, lookup_alter_el_id by done.
  destruct (_setupDone (this s)); [done|]. by rewrite lookup_alter_el_id.
Qed.

Lemma sized_presented_length H g o w h c s :
  length (nodes (doc (sized H g o w h (presented c s)))) = length (nodes (doc s)).
Proof.
  rewrite sized_nodes, presented_nodes, length_alter.
  destruct (_setupDone (this s)); [done|]. by rewrite length_alter.
Qed.

Lemma with_canvas_el_id id s :
  el_id <$> nodes (doc (with_canvas id s)) !! length (nodes (doc s)) = Some id.
Proof.
  cbn. rewrite lookup_alter_el_id by done.
  rewrite list_lookup_alter_eq, list_lookup_middle by done. done.
Qed.

(** C8.  Asking [createCanvas] for the 2D backend when the sketch's renderer
    [g] is a 2D default renderer returns [g] itself: no element and no
    renderer is created, the sketch's canvas is the same element under the
    same id, [defaultId] and the registry are as they were, and all the call
    does is append the canvas to its container again, resize [g] and apply
    its defaults.  Before any 2D canvas was created, the same call creates
    one element and gives it the id ['defaultCanvas' + i] for the least [i]
    no element of the document is found under, which becomes [defaultId]. *)
Theorem createCanvas_2d_reuses_surface k H w h renderer s :
  validate H "createCanvas" ([VNum w; VNum h] ++ optional_arg renderer) = None →
  requested k renderer = Rasterized2D →
  wf s →
  (∀ g o,
     _renderer (this s) = Some g →
     renderers s !! g = Some o →
     r_backend o = Rasterized2D →
     ∃ c s',
       canvas (this s) = Some c ∧
       createCanvas k H w h renderer s = Return g s' ∧
       length (nodes (doc s')) = length (nodes (doc s)) ∧
       length (renderers s') = length (renderers s) ∧
       canvas (this s') = Some c ∧
       _renderer (this s') = Some g ∧
       el_id <$> nodes (doc s') !! c = el_id <$> nodes (doc s) !! c ∧
       defaultId s' = defaultId s ∧
       _elements (this s') = _elements (this s) ∧
       trace s' = trace s ++
         [EvAppendChild (container s) c; EvResize g w h; EvApplyDefaults g]) ∧
  (_defaultGraphicsCreated (this s) = false →
   ∃ i g s',
     let c := length (nodes (doc s)) in
     free_slot (doc s) i ∧
     createCanvas k H w h renderer s = Return g s' ∧
     length (nodes (doc s')) = S (length (nodes (doc s))) ∧
     canvas (this s') = Some c ∧
     el_id <$> nodes (doc s') !! c = Some (slot_id i) ∧
     defaultId s' = slot_id i ∧
     _defaultGraphicsCreated (this s') = true).
Proof.
  intros Hv Hr Hwf. split.
  - intros g o Hg Ho Hb. unfold wf in Hwf. rewrite Hg in Hwf.
    destruct Hwf as (o' & Ho' & Hd & Hc & Hlt & Hcreated).
    assert (o' = o) as -> by congruence.
    exists (owningSurface o). eexists.
    split; [done|]. split; [eapply createCanvas_2d_again; eauto|].
    split; [apply sized_presented_length|].
    split; [by rewrite sized_renderers, length_alter, presented_renderers|].
    split; [by rewrite sized_canvas, presented_this|].
    split; [by rewrite sized_renderer, presented_this|].
    split; [apply sized_presented_el_id|].
    split; [by rewrite sized_defaultId, presented_defaultId|].
    split; [by rewrite sized_elements, presented_this|].
    by rewrite sized_trace, presented_trace, <- app_assoc.
  - intros Hcreated.
    destruct (createCanvas_2d_first k H w h renderer s Hv Hr Hcreated)
      as (i & Hfree & Hcall). cbv zeta in Hcall.
    exists i. eexists. eexists. cbv zeta.
    split; [done|]. split; [exact Hcall|].
    split.
    { rewrite sized_nodes, length_alter, with_renderer_doc, presented_nodes.
      destruct (_setupDone _); rewrite ?length_alter; cbn;
        rewrite !length_alter, length_app; cbn; lia. }
    split; [by rewrite sized_canvas, with_renderer_canvas|].
    split.
    { rewrite sized_nodes, lookup_alter_el_id, with_renderer_doc, presented_nodes by done.
      destruct (_setupDone _); rewrite ?lookup_alter_el_id by done;
        apply (with_canvas_el_id (slot_id i) (with_defaultId (slot_id i) s)). }
    split; [by rewrite sized_defaultId, with_renderer_defaultId, presented_defaultId|].
    by rewrite sized_created, with_renderer_created.
Qed.

Lemma createCanvas_2d_reuses_surface_witness :
  ∃ s', createCanvas token_constants quiet_host 200 100 None canvas_world
        = Return 0%nat s' ∧
        length (nodes (doc s')) = length (nodes (doc canvas_world)) ∧
        length (renderers s') = length (renderers canvas_world) ∧
        defaultId s' = defaultId canvas_world.
Proof.
  destruct (createCanvas_2d_reuses_surface token_constants quiet_host 200 100 None
              canvas_world) as [Hreuse _].
  - reflexivity.
  - vm_compute. reflexivity.
  - vm_compute. eexists. repeat split; lia.
  - edestruct (Hreuse 0%nat) as (c & s' & _ & Hcall & Hn & Hr & _ & _ & _ & Hid & _);
      [vm_compute; reflexivity..|].
    exists s'. repeat split; assumption.
Defined.

(** ** [createGraphics] *)

Lemma createGraphics_unfold k H w h renderer s :
  validate H "createGraphics" ([VNum w; VNum h] ++ optional_arg renderer) = None →
  let b := requested k renderer in
  let g := length (renderers s) in
  createGraphics k H w h renderer s =
  Return g (sized H g (new_object b (length (nodes (doc s))) false s) w h
                  (offscreen H b s)).
Proof.
  intros Hv b g. unfold createGraphics. rewrite bind_validate_ok by done.
  unfold new_Graphics. fold (requested k renderer). fold b. run.
  cbn [fst snd createElement doc with_doc emit with_contexts with_renderers with_this
       renderers contexts].
  erewrite Renderer_resize_some by (cbn; by apply list_lookup_middle).
  erewrite Renderer_applyDefaults_some
    by (rewrite resized_renderers; cbn;
        rewrite list_lookup_alter_eq, list_lookup_middle by done; reflexivity).
  reflexivity.
Qed.




(** ** One default renderer *)

Lemma found_last d id c p l0 :
  attached d = detach c l0 ++ [(c, p)] →
  has_id d id c →
  (∀ e q, (e, q) ∈ l0 → e ≠ c → ¬ has_id d id e) →
  getElementById d id = Some c ∧
  ∀ e q, (e, q) ∈ attached d → has_id d id e → e = c.
Proof.
  intros Ha Hc Hothers.
  assert (∀ e q, (e, q) ∈ detach c l0 → ¬ has_id d id e) as Hdet.
  { intros e q Hin. unfold detach in Hin.
    apply list_elem_of_filter in Hin as [Hne Hin]. by apply (Hothers e q). }
  split.
  - unfold getElementById. rewrite Ha, list_find_app_r.
    + cbn. by rewrite decide_True.
    + apply list_find_None, Forall_forall. intros [e q] Hin. by apply (Hdet e q).
  - intros e q Hin Hid. rewrite Ha in Hin. apply elem_of_app in Hin as [Hin|Hin].
    + by apply Hdet in Hin.
    + apply list_elem_of_singleton in Hin. congruence.
Qed.

Lemma with_canvas_el_id_ne id s j :
  j ≠ length (nodes (doc s)) →
  el_id <$> nodes (doc (with_canvas id s)) !! j = el_id <$> nodes (doc s) !! j.
Proof.
  intros Hne. cbn. rewrite !list_lookup_alter_ne by done.
  destruct (decide (j < length (nodes (doc s)))%nat).
  - by rewrite lookup_app_l.
  - rewrite !lookup_ge_None_2; [done|lia|rewrite length_app; cbn; lia].
Qed.

Lemma isDefault_alter_size w h g (l : list renderer) e :
  isDefault <$> alter (set_r_size w h) g l !! e = isDefault <$> l !! e.
Proof.
  destruct (decide (g = e)) as [->|Hne].
  - rewrite list_lookup_alter_eq. by destruct (l !! e).
  - by rewrite list_lookup_alter_ne.
Qed.

(** The closing lines flag no renderer and unflag none. *)
Lemma default_renderers_sized H g o w h s :
  default_renderers (sized H g o w h s) = default_renderers s.
Proof.
  unfold default_renderers. rewrite sized_elements. apply list_filter_iff.
  intros e. unfold is_default. by rewrite sized_renderers, isDefault_alter_size.
Qed.

(** A new default renderer, pushed on a registry of older objects, is one
    more default renderer. *)
Lemma default_renderers_with_renderer H b c s :
  Forall (λ e, (e < length (renderers s))%nat) (_elements (this s)) →
  default_renderers (with_renderer H b c s) = default_renderers s ++ [length (renderers s)].
Proof.
  intros Hold. unfold default_renderers.
  rewrite with_renderer_elements, filter_app. f_equal.
  - induction Hold as [|e l He Hl IH]; [done|].
    assert (is_default (with_renderer H b c s) e ↔ is_default s e) as Hiff.
    { unfold is_default. by rewrite with_renderer_renderers, lookup_app_l. }
    destruct (decide (is_default s e)).
    + rewrite !filter_cons_True by tauto. by f_equal.
    + rewrite !filter_cons_False by tauto. done.
  - rewrite filter_cons_True, filter_nil; [done|].
    unfold is_default. by rewrite with_renderer_object.
Qed.

Lemma default_renderers_presented c s :
  default_renderers (presented c s) = default_renderers s.
Proof.
  unfold default_renderers. rewrite presented_this. apply list_filter_iff.
  intros e. unfold is_default. by rewrite presented_renderers.
Qed.

Lemma not_found d id :
  getElementById d id = None → ∀ e q, (e, q) ∈ attached d → ¬ has_id d id e.
Proof.
  unfold getElementById. intros Hnone e q Hin.
  apply fmap_None, list_find_None in Hnone. rewrite Forall_forall in Hnone.
  by apply (Hnone (e, q)).
Qed.

Lemma new_canvas_el_id H g o w h b c id s j :
  el_id <$> nodes (doc (sized H g o w h
                          (with_renderer H b c (presented c (with_canvas id s))))) !! j
  = el_id <$> nodes (doc (with_canvas id s)) !! j.
Proof.
  rewrite sized_nodes, lookup_alter_el_id, with_renderer_doc, presented_nodes by done.
  destruct (_setupDone _); [done|]. by rewrite lookup_alter_el_id.
Qed.

(** A new canvas under an id that no element of the document has, with a new
    default renderer on it, in a registry without a default renderer. *)
Lemma new_default H b w h id s :
  let c' := length (nodes (doc s)) in
  let g' := length (renderers s) in
  let s1 := presented c' (with_canvas id s) in
  let s' := sized H g' (new_object b c' true s1) w h (with_renderer H b c' s1) in
  defaultId s = id →
  Forall (λ e, (e < length (renderers s))%nat) (_elements (this s)) →
  default_renderers s = [] →
  (∀ e q, (e, q) ∈ attached (doc s) → ¬ has_id (doc s) id e) →
  single_default s'.
Proof.
  intros c' g' s1 s' Hid Hold Hnone Hfree.
  assert (renderers s1 = renderers s) as Hrs
    by exact (presented_renderers c' (with_canvas id s)).
  exists g', (set_r_size w h (new_object b c' true s1)).
  split; [subst s'; by rewrite sized_renderer, with_renderer_renderer, Hrs|].
  split.
  { subst s'. apply sized_size. subst g'. rewrite <- Hrs. apply with_renderer_object. }
  split; [done|].
  split; [subst s'; by rewrite sized_canvas, with_renderer_canvas|].
  split.
  { subst s'. rewrite default_renderers_sized, default_renderers_with_renderer.
    - subst s1. rewrite default_renderers_presented, presented_renderers.
      change (default_renderers (with_canvas id s)) with (default_renderers s).
      by rewrite Hnone.
    - subst s1. by rewrite presented_this, presented_renderers. }
  split.
  { subst s'. rewrite sized_elements, with_renderer_elements, sized_renderers,
      length_alter, with_renderer_renderers, length_app, Hrs. subst s1.
    rewrite presented_this. cbn. apply Forall_app. split.
    - eapply Forall_impl; [exact Hold|]. cbn. intros. lia.
    - apply Forall_singleton. lia. }
  assert (defaultId s' = id) as ->.
  { subst s' s1. by rewrite sized_defaultId, with_renderer_defaultId, presented_defaultId. }
  apply (found_last (doc s') id c' (container s) (attached (doc s))).
  - subst s' s1. by rewrite sized_attached, with_renderer_doc, presented_attached.
  - unfold has_id. subst s' s1. rewrite new_canvas_el_id. apply with_canvas_el_id.
  - intros e q Hin Hne. unfold has_id. subst s' s1.
    rewrite new_canvas_el_id, with_canvas_el_id_ne by done. by apply (Hfree e q).
Qed.

(** The P2D branch on a sketch that has created no canvas. *)
Lemma createCanvas_fresh_2d k H w h renderer s :
  validate H "createCanvas" ([VNum w; VNum h] ++ optional_arg renderer) = None →
  requested k renderer = Rasterized2D →
  fresh s →
  ∃ g s', createCanvas k H w h renderer s = Return g s' ∧
          single_default s' ∧
          _defaultGraphicsCreated (this s') = true.
Proof.
  intros Hv Hr (Hg & Hcreated & Hnone & Hold).
  destruct (createCanvas_2d_first k H w h renderer s Hv Hr Hcreated)
    as (i & [Hfree _] & Hcall). cbv zeta in Hcall.
  eexists. eexists. split; [exact Hcall|]. split.
  - apply (new_default H Rasterized2D w h (slot_id i) (with_defaultId (slot_id i) s));
      [done|done|done|].
    by apply not_found.
  - by rewrite sized_created, with_renderer_created.
Qed.

(** The WEBGL branch on a sketch that has created no canvas, when no element
    of the document is under [defaultId]. *)
Lemma createCanvas_fresh_3d k H w h renderer s :
  validate H "createCanvas" ([VNum w; VNum h] ++ optional_arg renderer) = None →
  requested k renderer = Accelerated3D →
  fresh s →
  getElementById (doc s) (defaultId s) = None →
  ∃ g s', createCanvas k H w h renderer s = Return g s' ∧
          single_default s' ∧
          _defaultGraphicsCreated (this s') = false.
Proof.
  intros Hv Hr (Hg & Hcreated & Hnone & Hold) Hfree.
  eexists. eexists. split; [by apply createCanvas_3d_fresh|]. split.
  - apply (new_default H Accelerated3D w h (defaultId s) s); [done|done|done|].
    by apply not_found.
  - by rewrite sized_created, with_renderer_created, presented_this.
Qed.











(** ** Replacing a 2D canvas by a 3D one *)



(** ** The state invariant *)

Lemma wf_empty_world : wf empty_world.
Proof. by split. Qed.

Lemma wf_new_default H b w h id s :
  let c' := length (nodes (doc s)) in
  let s1 := presented c' (with_canvas id s) in
  wf (sized H (length (renderers s)) (new_object b c' true s1) w h
            (with_renderer H b c' s1)).
Proof.
  intros c' s1. unfold wf.
  assert (renderers s1 = renderers s) as Hrs
    by exact (presented_renderers c' (with_canvas id s)).
  rewrite sized_renderer, with_renderer_renderer, Hrs.
  exists (set_r_size w h (new_object b c' true s1)).
  split; [apply sized_size; rewrite <- Hrs; apply with_renderer_object|].
  split; [done|].
  split; [by rewrite sized_canvas, with_renderer_canvas|].
  split.
  - rewrite sized_nodes, length_alter, with_renderer_doc. subst s1.
    rewrite presented_nodes. destruct (_setupDone _); rewrite ?length_alter; cbn;
      rewrite !length_alter, length_app; cbn; lia.
  - intros Hb. cbn in Hb. subst b. by rewrite sized_created, with_renderer_created.
Qed.

Lemma wf_reused H g o w h s :
  wf s →
  _renderer (this s) = Some g →
  renderers s !! g = Some o →
  wf (sized H g o w h (presented (owningSurface o) s)).
Proof.
  unfold wf. intros Hwf Hg Ho. rewrite Hg in Hwf.
  destruct Hwf as (o' & Ho' & Hd & Hc & Hlt & Hcreated).
  assert (o' = o) as -> by congruence.
  rewrite sized_renderer, presented_this, Hg.
  exists (set_r_size w h o).
  split; [apply sized_size; by rewrite presented_renderers|].
  split; [done|].
  split; [by rewrite sized_canvas, presented_this|].
  split; [by rewrite sized_presented_length|].
  by rewrite sized_created, presented_this.
Qed.

(** X2.  [createCanvas] returns whenever the validator lets it, and keeps
    the invariant. *)
Lemma wf_createCanvas k H w h renderer s :
  validate H "createCanvas" ([VNum w; VNum h] ++ optional_arg renderer) = None →
  wf s →
  ∃ g s', createCanvas k H w h renderer s = Return g s' ∧ wf s'.
Proof.
  intros Hv Hwf. destruct (requested k renderer) eqn:Hr.
  - destruct (_defaultGraphicsCreated (this s)) eqn:Hcreated.
    + pose proof Hwf as Hwf'. unfold wf in Hwf'.
      destruct (_renderer (this s)) as [g|] eqn:Hg; [|destruct Hwf'; congruence].
      destruct Hwf' as (o & Ho & Hd & Hc & _).
      exists g. eexists. split; [by eapply createCanvas_2d_again|].
      by apply wf_reused.
    + destruct (createCanvas_2d_first k H w h renderer s Hv Hr Hcreated)
        as (i & _ & Hcall). cbv zeta in Hcall.
      eexists. eexists. split; [exact Hcall|].
      exact (wf_new_default H Rasterized2D w h (slot_id i) (with_defaultId (slot_id i) s)).
  - destruct (getElementById (doc s) (defaultId s)) as [c|] eqn:Hc.
    + destruct (getElementById_has_id _ _ _ Hc) as [_ [p Hp]].
      eexists. eexists. split; [by apply createCanvas_3d_replace|].
      exact (wf_new_default H Accelerated3D w h (defaultId s) (torn_down c p s)).
    + eexists. eexists. split; [by apply createCanvas_3d_fresh|].
      exact (wf_new_default H Accelerated3D w h (defaultId s) s).
Qed.

(** [createGraphics] keeps the invariant. *)
Lemma wf_createGraphics k H w h renderer s :
  validate H "createGraphics" ([VNum w; VNum h] ++ optional_arg renderer) = None →
  wf s →
  ∃ g s', createGraphics k H w h renderer s = Return g s' ∧ wf s'.
Proof.
  intros Hv Hwf. eexists. eexists. split; [by apply createGraphics_unfold|].
  cbv zeta. unfold wf in *. rewrite sized_renderer, sized_canvas, sized_created.
  cbn [offscreen emit with_this with_renderers with_contexts with_doc this _renderer
       canvas _defaultGraphicsCreated set_elements].
  destruct (_renderer (this s)) as [g|] eqn:Hg; [|done].
  destruct Hwf as (o & Ho & Hd & Hc & Hlt & Hcreated).
  exists o. pose proof (lookup_lt_Some _ _ _ Ho) as Hglt.
  split.
  { rewrite sized_renderers. cbn. rewrite list_lookup_alter_ne by lia.
    by rewrite lookup_app_l. }
  split; [done|]. split; [done|]. split; [|done].
  rewrite sized_nodes, length_alter. cbn. rewrite length_alter, length_app. lia.
Qed.

(** [noCanvas] keeps the invariant when it returns. *)
Lemma wf_noCanvas s s' : wf s → noCanvas s = Return tt s' → wf s'.
Proof.
  intros Hwf Hcall. unfold noCanvas, parentNode_removeChild, bind, gets, modify in Hcall.
  destruct (canvas (this s)) as [c|]; [|by injection Hcall as <-].
  cbn in Hcall. destruct (parentNode (doc s) c) as [p|]; [|done].
  by injection Hcall as <-.
Qed.

(** [blendMode] keeps the invariant when it returns. *)
Lemma wf_blendMode k H mode s s' : wf s → blendMode k H mode s = Return tt s' → wf s'.
Proof.
  intros Hwf Hcall.
  assert (∀ m s0 s1, wf s0 → this_renderer_blendMode m s0 = Return tt s1 → wf s1)
    as Hforward.
  { intros m s0 s1 Hwf0 Hm. unfold wf in Hwf0.
    destruct (_renderer (this s0)) as [g|] eqn:Hg;
      [|by rewrite this_renderer_blendMode_none in Hm].
    destruct Hwf0 as (o & Ho & Hd & Hc & Hlt & Hcreated).
    rewrite (this_renderer_blendMode_some _ _ _ _ Hg Ho) in Hm. injection Hm as <-.
    unfold wf. cbn. rewrite Hg. exists (set_r_blendMode m o).
    split; [by rewrite list_lookup_alter_eq, Ho|]. done. }
  rewrite blendMode_unfold in Hcall. unfold bind at 1 in Hcall.
  unfold _validateParameters in Hcall.
  destruct (validate H "blendMode" [VStr mode]); [done|]. cbn in Hcall.
  destruct (mode_test k mode); [by eapply Hforward|].
  destruct (String.eqb mode (NORMAL k)); [|done].
  unfold bind at 1 in Hcall. unfold modify at 1 in Hcall.
  eapply Hforward; [|exact Hcall]. exact Hwf.
Qed.

(** [resizeCanvas] without the redraw pass keeps the invariant. *)
Lemma wf_resizeCanvas H w h s :
  validate H "resizeCanvas" [VNum w; VNum h; VBool true] = None →
  wf s →
  ∃ s', resizeCanvas H w h true s = Return tt s' ∧ wf s'.
Proof.
  intros Hv Hwf. pose proof Hwf as Hwf'. unfold wf in Hwf'.
  destruct (_renderer (this s)) as [g|] eqn:Hg.
  - destruct Hwf' as (o & Ho & Hd & Hc & Hlt & Hcreated).
    eexists. split; [by rewrite (resizeCanvas_unfold H w h true s g o)|].
    unfold wf.
    destruct (restored_frame (map_to_list (saved_props s))
                (with_this (set_size w h) (resized H g o w h s)))
      as (-> & -> & _ & -> & _).
    cbn [this with_this doc renderers _renderer canvas _defaultGraphicsCreated set_size].
    rewrite resized_renderer, resized_canvas, resized_created, resized_nodes,
      length_alter, Hg.
    exists (set_r_size w h o). split; [by apply resized_size|]. done.
  - exists s. split; [|done]. unfold resizeCanvas. rewrite bind_validate_ok by done.
    unfold bind, gets. by rewrite Hg.
Qed.

Lemma wf_createCanvas_witness :
  ∃ g s', createCanvas token_constants quiet_host 100 100 (Some "WEBGL") canvas_world
          = Return g s' ∧ wf s'.
Proof.
  apply (wf_createCanvas token_constants quiet_host 100 100 (Some "WEBGL") canvas_world).
  - reflexivity.
  - vm_compute. eexists. repeat split; lia.
Defined.

(** ** The scanning loop, for any number of turns *)

Lemma scan_ids_bound fuel d i0 i :
  scan_ids fuel d i0 = Some i → (i < i0 + fuel)%nat.
Proof.
  revert i0. induction fuel as [|fuel IH]; intros i0 Hscan; [done|].
  cbn [scan_ids] in Hscan.
  destruct (getElementById d ("defaultCanvas" +:+ pretty i0)).
  - apply IH in Hscan. lia.
  - injection Hscan as <-. lia.
Qed.

(** A loop that stops within some number of turns stops on the same index
    within any larger number. *)
Lemma scan_ids_more fuel fuel' d i0 i :
  scan_ids fuel d i0 = Some i → (fuel ≤ fuel')%nat → scan_ids fuel' d i0 = Some i.
Proof.
  revert fuel' i0. induction fuel as [|fuel IH]; intros fuel' i0 Hscan Hle; [done|].
  destruct fuel' as [|fuel']; [lia|]. cbn [scan_ids] in *.
  destruct (getElementById d ("defaultCanvas" +:+ pretty i0)); [|done].
  apply (IH fuel'); [done|lia].
Qed.

(** X1.  The scanning loop of [createCanvas] always stops: within one turn
    more than the document has elements it reaches the least index whose id
    no element of the document has, which is at most the number of elements
    of the document, and more turns give the same index. *)
Theorem createCanvas_scan_terminates d :
  ∃ i, scan_ids (S (length (attached d))) d 0 = Some i ∧
       free_slot d i ∧
       (i ≤ length (attached d))%nat ∧
       ∀ fuel, (length (attached d) < fuel)%nat → scan_ids fuel d 0 = Some i.
Proof.
  destruct (scan_ids_total d) as (i & Hscan & Hfree). exists i.
  split; [done|]. split; [done|]. split.
  - apply scan_ids_bound in Hscan. lia.
  - intros fuel Hfuel. apply (scan_ids_more _ _ _ _ _ Hscan). lia.
Qed.

(** ** More on the document *)

(** Removing a child leaves every other element with the parent it had. *)
Lemma parentNode_removed_other d c c0 :
  c0 ≠ c → parentNode (removeChild c d) c0 = parentNode d c0.
Proof.
  intros Hne. unfold parentNode. cbn. unfold detach.
  induction (attached d) as [|[e q] l IH]; [done|].
  destruct (decide (e = c)) as [->|Hec].
  - rewrite filter_cons_False by (cbn; tauto). cbn.
    rewrite decide_False by (cbn; congruence).
    rewrite IH. by destruct (list_find _ l) as [[i x]|].
  - rewrite filter_cons_True by done. cbn.
    destruct (decide (e = c0)) as [->|Hec0]; [done|].
    destruct (list_find _ (filter _ l)) as [[i x]|], (list_find _ l) as [[j y]|];
      cbn in *; congruence.
Qed.

(** Appending a child leaves every other element with the parent it had. *)
Lemma parentNode_appended_other d p c c0 :
  c0 ≠ c → parentNode (appendChild p c d) c0 = parentNode d c0.
Proof.
  intros Hne. rewrite <- (parentNode_removed_other d c c0 Hne).
  unfold parentNode. cbn.
  induction (detach c (attached d)) as [|[e q] l IH]; cbn.
  - by rewrite decide_False by (cbn; congruence).
  - destruct (decide (e = c0)) as [->|Hec0]; [done|].
    destruct (list_find _ (l ++ [(c, p)])) as [[i x]|], (list_find _ l) as [[j y]|];
      cbn in *; congruence.
Qed.

(** ** The canvas [createCanvas] creates *)

(** The paths of [createCanvas] that create a canvas: the WEBGL branch, with
    or without an element found under [defaultId], and the P2D branch before
    any 2D canvas was created.  They differ in the state [s0] the creation
    starts from and in the id [name] the canvas gets. *)
Lemma createCanvas_new k H w h renderer s :
  validate H "createCanvas" ([VNum w; VNum h] ++ optional_arg renderer) = None →
  requested k renderer = Accelerated3D ∨ _defaultGraphicsCreated (this s) = false →
  ∃ name s0,
    ((requested k renderer = Accelerated3D ∧
      getElementById (doc s) (defaultId s) = None ∧ s0 = s ∧ name = defaultId s) ∨
     (∃ c p, requested k renderer = Accelerated3D ∧
             getElementById (doc s) (defaultId s) = Some c ∧
             parentNode (doc s) c = Some p ∧
             s0 = torn_down c p s ∧ name = defaultId s) ∨
     (∃ i, requested k renderer = Rasterized2D ∧
           free_slot (doc s) i ∧
           s0 = with_defaultId (slot_id i) s ∧ name = slot_id i)) ∧
    let c' := length (nodes (doc s)) in
    let s1 := presented c' (with_canvas name s0) in
    createCanvas k H w h renderer s =
    Return (length (renderers s))
           (sized H (length (renderers s)) (new_object (requested k renderer) c' true s1)
                  w h (with_renderer H (requested k renderer) c' s1)).
Proof.
  intros Hv Hnew. destruct (requested k renderer) eqn:Hr.
  - destruct Hnew as [?|Hcreated]; [done|].
    destruct (createCanvas_2d_first k H w h renderer s Hv Hr Hcreated)
      as (i & Hfree & Hcall).
    exists (slot_id i), (with_defaultId (slot_id i) s). split; [|exact Hcall].
    right. right. by exists i.
  - destruct (getElementById (doc s) (defaultId s)) as [c|] eqn:Hc.
    + destruct (getElementById_has_id _ _ _ Hc) as [_ [p Hp]].
      exists (defaultId s), (torn_down c p s). split.
      * right. left. by exists c, p.
      * by apply createCanvas_3d_replace.
    + exists (defaultId s), s. split; [by left|]. by apply createCanvas_3d_fresh.
Qed.

(** The new element, after the call. *)
Lemma new_canvas_node H b w h name s :
  let c' := length (nodes (doc s)) in
  let s1 := presented c' (with_canvas name s) in
  nodes (doc (sized H (length (renderers s)) (new_object b c' true s1) w h
                    (with_renderer H b c' s1))) !! c'
  = Some (set_el_size w h
            ((if _setupDone (this s) then (λ e, e) else hide)
               (classList_add defaultClass (set_el_id name blank_canvas)))).
Proof.
  intros c' s1. rewrite sized_nodes. cbn [owningSurface new_object].
  rewrite list_lookup_alter_eq, with_renderer_doc. subst s1.
  rewrite presented_nodes.
  change (_setupDone (this (with_canvas name s))) with (_setupDone (this s)).
  assert (nodes (doc (with_canvas name s)) !! c'
          = Some (classList_add defaultClass (set_el_id name blank_canvas))) as Hc'.
  { cbn. rewrite !list_lookup_alter_eq. by rewrite list_lookup_middle. }
  destruct (_setupDone (this s)).
  - by rewrite Hc'.
  - by rewrite list_lookup_alter_eq, Hc'.
Qed.

(** X4.  A canvas that [createCanvas] creates is a new element; it is the
    sketch's canvas after the call, its id is [defaultId] as the call leaves
    it, and its class list is [defaultClass] alone.  The WEBGL branch leaves
    [defaultId] as it was, so that the new canvas takes over the id of the
    one it replaces. *)
Theorem createCanvas_marks_new_canvas k H w h renderer s :
  validate H "createCanvas" ([VNum w; VNum h] ++ optional_arg renderer) = None →
  requested k renderer = Accelerated3D ∨ _defaultGraphicsCreated (this s) = false →
  ∃ g s' e,
    let c' := length (nodes (doc s)) in
    createCanvas k H w h renderer s = Return g s' ∧
    nodes (doc s) !! c' = None ∧
    canvas (this s') = Some c' ∧
    nodes (doc s') !! c' = Some e ∧
    el_id e = defaultId s' ∧
    el_classList e = [defaultClass] ∧
    (requested k renderer = Accelerated3D → defaultId s' = defaultId s).
Proof.
  intros Hv Hnew.
  destruct (createCanvas_new k H w h renderer s Hv Hnew) as (name & s0 & Hs0 & Hcall).
  cbv zeta in Hcall.
  assert (length (nodes (doc s0)) = length (nodes (doc s)) ∧
          length (renderers s0) = length (renderers s) ∧
          defaultId s0 = name ∧
          (requested k renderer = Accelerated3D → name = defaultId s))
    as (Hn & Hrs & Hid & H3d).
  { destruct Hs0 as [(_ & _ & -> & ->)|[(c & p & _ & _ & _ & -> & ->)|(i & Hr & _ & -> & ->)]];
      repeat split; try done. intros ?. congruence. }
  eexists. eexists. eexists. cbv zeta. split; [exact Hcall|].
  split; [by apply lookup_ge_None_2|].
  split; [by rewrite sized_canvas, with_renderer_canvas|].
  split.
  { rewrite <- Hn, <- Hrs. apply new_canvas_node. }
  split.
  { rewrite sized_defaultId, with_renderer_defaultId, presented_defaultId.
    change (defaultId (with_canvas name s0)) with (defaultId s0). rewrite Hid.
    by destruct (_setupDone (this s0)). }
  split; [by destruct (_setupDone (this s0))|].
  intros Hr. rewrite sized_defaultId, with_renderer_defaultId, presented_defaultId.
  change (defaultId (with_canvas name s0)) with (defaultId s0). rewrite Hid. by apply H3d.
Qed.

Lemma createCanvas_marks_new_canvas_witness :
  ∃ g s' e,
    createCanvas token_constants quiet_host 100 100 (Some "WEBGL") canvas_world
      = Return g s' ∧
    nodes (doc canvas_world) !! length (nodes (doc canvas_world)) = None ∧
    canvas (this s') = Some (length (nodes (doc canvas_world))) ∧
    nodes (doc s') !! length (nodes (doc canvas_world)) = Some e ∧
    el_id e = defaultId s' ∧
    el_classList e = [defaultClass] ∧
    (requested token_constants (Some "WEBGL") = Accelerated3D →
     defaultId s' = defaultId canvas_world).
Proof.
  apply (createCanvas_marks_new_canvas token_constants quiet_host 100 100 (Some "WEBGL")
           canvas_world).
  - reflexivity.
  - left. reflexivity.
Defined.

(** The states the creating paths start from keep the elements, the
    renderers and the sketch's fields other than the registry. *)
Lemma createCanvas_new_start k renderer s name s0 :
  ((requested k renderer = Accelerated3D ∧
    getElementById (doc s) (defaultId s) = None ∧ s0 = s ∧ name = defaultId s) ∨
   (∃ c p, requested k renderer = Accelerated3D ∧
           getElementById (doc s) (defaultId s) = Some c ∧
           parentNode (doc s) c = Some p ∧
           s0 = torn_down c p s ∧ name = defaultId s) ∨
   (∃ i, requested k renderer = Rasterized2D ∧
         free_slot (doc s) i ∧
         s0 = with_defaultId (slot_id i) s ∧ name = slot_id i)) →
  nodes (doc s0) = nodes (doc s) ∧
  renderers s0 = renderers s ∧
  _setupDone (this s0) = _setupDone (this s) ∧
  container s0 = container s ∧
  defaultId s0 = name.
Proof.
  intros [(_ & _ & -> & ->)|[(c & p & _ & _ & _ & -> & ->)|(i & _ & _ & -> & ->)]]; done.
Qed.

(** X5.  [createCanvas] hides the sketch's canvas while the sketch is still
    in setup, whether it created the canvas or reuses it.  Once setup is
    done it leaves the two visibility attributes alone: a reused canvas
    keeps the ones it has (a canvas hidden in setup is not revealed), a new
    one has those of a new element. *)
Theorem createCanvas_hides_in_setup k H w h renderer s :
  validate H "createCanvas" ([VNum w; VNum h] ++ optional_arg renderer) = None →
  wf s →
  ∃ g s' c e,
    createCanvas k H w h renderer s = Return g s' ∧
    canvas (this s') = Some c ∧
    nodes (doc s') !! c = Some e ∧
    (_setupDone (this s) = false →
     el_dataset_hidden e = true ∧ el_style_visibility e = "hidden") ∧
    (_setupDone (this s) = true →
     el_dataset_hidden e = from_option el_dataset_hidden false (nodes (doc s) !! c) ∧
     el_style_visibility e
       = from_option el_style_visibility EmptyString (nodes (doc s) !! c)).
Proof.
  intros Hv Hwf.
  destruct (decide (requested k renderer = Accelerated3D ∨
                    _defaultGraphicsCreated (this s) = false)) as [Hnew|Hold].
  - destruct (createCanvas_new k H w h renderer s Hv Hnew) as (name & s0 & Hs0 & Hcall).
    cbv zeta in Hcall.
    destruct (createCanvas_new_start _ _ _ _ _ Hs0) as (Hn & Hrs & Hsetup & _ & _).
    eexists. eexists. exists (length (nodes (doc s))). eexists.
    split; [exact Hcall|].
    split; [by rewrite sized_canvas, with_renderer_canvas|].
    split.
    { rewrite <- Hn, <- Hrs. apply new_canvas_node. }
    rewrite (lookup_ge_None_2 (nodes (doc s))) by done. rewrite Hsetup.
    split; intros ->; done.
  - assert (requested k renderer = Rasterized2D) as Hr
      by (destruct (requested k renderer); tauto).
    assert (_defaultGraphicsCreated (this s) = true) as Hcreated
      by (destruct (_defaultGraphicsCreated (this s)); tauto).
    unfold wf in Hwf. destruct (_renderer (this s)) as [g|] eqn:Hg;
      [|destruct Hwf; congruence].
    destruct Hwf as (o & Ho & Hd & Hc & Hlt & _).
    destruct (lookup_lt_is_Some_2 _ _ Hlt) as [e0 He0].
    exists g. eexists. exists (owningSurface o).
    exists (set_el_size w h ((if _setupDone (this s) then (λ e, e) else hide) e0)).
    split; [by eapply createCanvas_2d_again|].
    split; [by rewrite sized_canvas, presented_this|].
    split.
    { rewrite sized_nodes, list_lookup_alter_eq, presented_nodes.
      destruct (_setupDone (this s)).
      - by rewrite He0.
      - by rewrite list_lookup_alter_eq, He0. }
    rewrite He0. split; intros ->; done.
Qed.

Lemma createCanvas_hides_in_setup_witness :
  ∃ g s' c e,
    createCanvas token_constants quiet_host 100 100 None empty_world = Return g s' ∧
    canvas (this s') = Some c ∧
    nodes (doc s') !! c = Some e ∧
    el_dataset_hidden e = true ∧ el_style_visibility e = "hidden".
Proof.
  destruct (createCanvas_hides_in_setup token_constants quiet_host 100 100 None empty_world)
    as (g & s' & c & e & Hcall & Hc & He & Hhidden & _).
  - reflexivity.
  - split; reflexivity.
  - exists g, s', c, e. split; [exact Hcall|]. split; [exact Hc|]. split; [exact He|].
    apply Hhidden. reflexivity.
Defined.



(** ** [noCanvas] and [createCanvas] *)

(** The sample sketch has its one default renderer. *)
Lemma single_default_canvas_world : single_default canvas_world.
Proof.
  destruct (createCanvas_fresh_2d token_constants quiet_host 100 100 None empty_world)
    as (g & s1 & Hcall & Hs1 & _).
  - reflexivity.
  - reflexivity.
  - repeat split; constructor.
  - unfold canvas_world, state_after. by rewrite Hcall.
Qed.

Lemma wf_canvas_world : wf canvas_world.
Proof. vm_compute. eexists. repeat split; lia. Qed.

(** Once the one element under an id is removed, no element is found under
    it. *)
Lemma getElementById_removed d id c :
  (∀ e q, (e, q) ∈ attached d → has_id d id e → e = c) →
  getElementById (removeChild c d) id = None.
Proof.
  intros Huniq. unfold getElementById. apply fmap_None, list_find_None, Forall_forall.
  intros [e q] Hin Hid. cbn in Hin. unfold detach in Hin.
  apply list_elem_of_filter in Hin as [Hne Hin]. apply Hne. by apply (Huniq e q).
Qed.

(** X7.  [noCanvas] is undone by [createCanvas] asking for the 2D backend,
    once a 2D canvas was created: the call returns the sketch's renderer,
    creates no element and no renderer, leaves the registry as it was, and
    appends the detached canvas to the sketch's container again. *)
Theorem createCanvas_2d_after_noCanvas k H w h renderer s c p :
  validate H "createCanvas" ([VNum w; VNum h] ++ optional_arg renderer) = None →
  requested k renderer = Rasterized2D →
  wf s →
  _defaultGraphicsCreated (this s) = true →
  canvas (this s) = Some c →
  parentNode (doc s) c = Some p →
  ∃ g s1 s2,
    _renderer (this s) = Some g ∧
    noCanvas s = Return tt s1 ∧
    parentNode (doc s1) c = None ∧
    createCanvas k H w h renderer s1 = Return g s2 ∧
    canvas (this s2) = Some c ∧
    parentNode (doc s2) c = Some (container s) ∧
    length (nodes (doc s2)) = length (nodes (doc s)) ∧
    length (renderers s2) = length (renderers s) ∧
    _elements (this s2) = _elements (this s).
Proof.
  intros Hv Hr Hwf Hcreated Hc Hp.
  unfold wf in Hwf. destruct (_renderer (this s)) as [g|] eqn:Hg;
    [|destruct Hwf; congruence].
  destruct Hwf as (o & Ho & _).
  exists g. eexists. eexists.
  split; [done|]. split; [by apply noCanvas_attached|].
  split; [apply parentNode_removed|].
  split; [by eapply createCanvas_2d_again|].
  split; [by rewrite sized_canvas, presented_this|].
  split.
  { rewrite <- (parentNode_appended (removeChild c (doc s)) (container s) c).
    apply parentNode_ext. by rewrite sized_attached, presented_attached. }
  split; [by rewrite sized_presented_length|].
  split; [by rewrite sized_renderers, length_alter, presented_renderers|].
  by rewrite sized_elements, presented_this.
Qed.

Lemma createCanvas_2d_after_noCanvas_witness :
  ∃ g s1 s2,
    _renderer (this canvas_world) = Some g ∧
    noCanvas canvas_world = Return tt s1 ∧
    parentNode (doc s1) 1 = None ∧
    createCanvas token_constants quiet_host 100 100 None s1 = Return g s2 ∧
    canvas (this s2) = Some 1%nat ∧
    parentNode (doc s2) 1 = Some (container canvas_world) ∧
    length (nodes (doc s2)) = length (nodes (doc canvas_world)) ∧
    length (renderers s2) = length (renderers canvas_world) ∧
    _elements (this s2) = _elements (this canvas_world).
Proof.
  apply (createCanvas_2d_after_noCanvas token_constants quiet_host 100 100 None
           canvas_world 1 0).
  - reflexivity.
  - reflexivity.
  - apply wf_canvas_world.
  - vm_compute. reflexivity.
  - vm_compute. reflexivity.
  - vm_compute. reflexivity.
Defined.

(** X3.  [noCanvas] detaches the canvas and leaves the renderer in the
    registry; the WEBGL branch of [createCanvas] then finds no element under
    [defaultId] and tears nothing down.  On a sketch with its one default
    renderer [g], [noCanvas] followed by [createCanvas] asking for the 3D
    backend leaves [g] in the registry next to the new renderer, and two
    entries flagged default. *)
Theorem createCanvas_3d_after_noCanvas k H w h renderer s :
  validate H "createCanvas" ([VNum w; VNum h] ++ optional_arg renderer) = None →
  requested k renderer = Accelerated3D →
  single_default s →
  ∃ g s1 g' s2,
    _renderer (this s) = Some g ∧
    noCanvas s = Return tt s1 ∧
    getElementById (doc s1) (defaultId s1) = None ∧
    createCanvas k H w h renderer s1 = Return g' s2 ∧
    (g' ≠ g) ∧
    _elements (this s2) = _elements (this s) ++ [g'] ∧
    default_renderers s2 = [g; g'].
Proof.
  intros Hv Hr (g & o & Hg & Ho & Hd & Hc & Hone & Hold & Hfound & Huniq).
  destruct (getElementById_has_id _ _ _ Hfound) as [_ [p Hp]].
  pose proof (lookup_lt_Some _ _ _ Ho) as Hglt.
  set (s1 := emit (EvRemoveChild p (owningSurface o))
               (with_doc (removeChild (owningSurface o)) s)).
  assert (getElementById (doc s1) (defaultId s1) = None) as Hnone
    by (by apply getElementById_removed).
  exists g, s1. eexists. eexists.
  split; [done|]. split; [by apply noCanvas_attached|]. split; [done|].
  split; [by apply createCanvas_3d_fresh|].
  split; [change (renderers s1) with (renderers s); lia|].
  split.
  { by rewrite sized_elements, with_renderer_elements, presented_this,
      presented_renderers. }
  rewrite default_renderers_sized, default_renderers_with_renderer.
  - rewrite default_renderers_presented, presented_renderers.
    change (default_renderers (with_canvas (defaultId s1) s1))
      with (default_renderers s).
    by rewrite Hone.
  - by rewrite presented_this, presented_renderers.
Qed.

Lemma createCanvas_3d_after_noCanvas_witness :
  ∃ g s1 g' s2,
    _renderer (this canvas_world) = Some g ∧
    noCanvas canvas_world = Return tt s1 ∧
    getElementById (doc s1) (defaultId s1) = None ∧
    createCanvas token_constants quiet_host 100 100 (Some "WEBGL") s1 = Return g' s2 ∧
    (g' ≠ g) ∧
    _elements (this s2) = _elements (this canvas_world) ++ [g'] ∧
    default_renderers s2 = [g; g'].
Proof.
  apply (createCanvas_3d_after_noCanvas token_constants quiet_host 100 100 (Some "WEBGL")
           canvas_world).
  - reflexivity.
  - reflexivity.
  - apply single_default_canvas_world.
Defined.

(** ** The id of a first 2D canvas *)



(** X9.  Asking for the 2D backend on a sketch whose one default renderer is
    a 3D one, before any 2D canvas was created, replaces nothing: the call
    creates a second canvas and a second default renderer, the 3D canvas
    stays where it is in the document and the 3D renderer in the registry,
    and two entries of the registry are flagged default. *)
Theorem createCanvas_2d_after_3d_adds_default k H w h renderer s :
  validate H "createCanvas" ([VNum w; VNum h] ++ optional_arg renderer) = None →
  requested k renderer = Rasterized2D →
  _defaultGraphicsCreated (this s) = false →
  single_default s →
  ∃ g c g' s',
    let c' := length (nodes (doc s)) in
    _renderer (this s) = Some g ∧
    canvas (this s) = Some c ∧
    createCanvas k H w h renderer s = Return g' s' ∧
    (g' ≠ g) ∧ (c' ≠ c) ∧
    _renderer (this s') = Some g' ∧
    canvas (this s') = Some c' ∧
    is_Some (parentNode (doc s) c) ∧
    parentNode (doc s') c = parentNode (doc s) c ∧
    _elements (this s') = _elements (this s) ++ [g'] ∧
    default_renderers s' = [g; g'].
Proof.
  intros Hv Hr Hcreated (g & o & Hg & Ho & Hd & Hc & Hone & Hold & Hfound & Huniq).
  destruct (getElementById_has_id _ _ _ Hfound) as [Hid Hp].
  pose proof (has_id_lt _ _ _ Hid) as Hlt.
  pose proof (lookup_lt_Some _ _ _ Ho) as Hglt.
  destruct (createCanvas_2d_first k H w h renderer s Hv Hr Hcreated)
    as (i & Hfree & Hcall). cbv zeta in Hcall.
  exists g, (owningSurface o). eexists. eexists. cbv zeta.
  split; [done|]. split; [done|]. split; [exact Hcall|].
  split; [lia|]. split; [lia|].
  split; [by rewrite sized_renderer, with_renderer_renderer, presented_renderers|].
  split; [by rewrite sized_canvas, with_renderer_canvas|].
  split; [done|].
  split.
  { rewrite <- (parentNode_appended_other (doc s) (container s) (length (nodes (doc s)))
                  (owningSurface o)) by lia.
    apply parentNode_ext. by rewrite sized_attached, with_renderer_doc, presented_attached. }
  split.
  { by rewrite sized_elements, with_renderer_elements, presented_this,
      presented_renderers. }
  rewrite default_renderers_sized, default_renderers_with_renderer.
  - rewrite default_renderers_presented, presented_renderers.
    change (default_renderers (with_canvas (slot_id i) (with_defaultId (slot_id i) s)))
      with (default_renderers s).
    by rewrite Hone.
  - by rewrite presented_this, presented_renderers.
Qed.

Lemma single_default_webgl_world : single_default webgl_world.
Proof.
  destruct (createCanvas_fresh_3d token_constants quiet_host 100 100 (Some "WEBGL")
              empty_world) as (g & s1 & Hcall & Hs1 & _).
  - reflexivity.
  - reflexivity.
  - repeat split; constructor.
  - reflexivity.
  - unfold webgl_world, state_after. by rewrite Hcall.
Qed.

Lemma createCanvas_2d_after_3d_adds_default_witness :
  ∃ g c g' s',
    _renderer (this webgl_world) = Some g ∧
    canvas (this webgl_world) = Some c ∧
    createCanvas token_constants quiet_host 100 100 None webgl_world = Return g' s' ∧
    (g' ≠ g) ∧ (length (nodes (doc webgl_world)) ≠ c) ∧
    _renderer (this s') = Some g' ∧
    canvas (this s') = Some (length (nodes (doc webgl_world))) ∧
    is_Some (parentNode (doc webgl_world) c) ∧
    parentNode (doc s') c = parentNode (doc webgl_world) c ∧
    _elements (this s') = _elements (this webgl_world) ++ [g'] ∧
    default_renderers s' = [g; g'].
Proof.
  apply (createCanvas_2d_after_3d_adds_default token_constants quiet_host 100 100 None
           webgl_world).
  - reflexivity.
  - reflexivity.
  - vm_compute. reflexivity.
  - apply single_default_webgl_world.
Defined.

(** ** The registry *)

(** X10.  [createCanvas] removes from the registry no entry but the
    sketch's renderer at the time of the call, keeps the entries it keeps in
    their order, and adds no entry but the renderer it returns; asking for
    the 2D backend removes none at all. *)
Theorem createCanvas_registry_frame k H w h renderer s :
  validate H "createCanvas" ([VNum w; VNum h] ++ optional_arg renderer) = None →
  wf s →
  ∃ g s',
    createCanvas k H w h renderer s = Return g s' ∧
    filter (λ e, Some e ≠ _renderer (this s)) (_elements (this s))
      `sublist_of` _elements (this s') ∧
    (∀ e, e ∈ _elements (this s') → e ∈ _elements (this s) ∨ e = g) ∧
    (requested k renderer = Rasterized2D →
     _elements (this s) `sublist_of` _elements (this s')).
Proof.
  intros Hv Hwf.
  destruct (decide (requested k renderer = Accelerated3D ∨
                    _defaultGraphicsCreated (this s) = false)) as [Hnew|Hold].
  - destruct (createCanvas_new k H w h renderer s Hv Hnew) as (name & s0 & Hs0 & Hcall).
    cbv zeta in Hcall. eexists. eexists. split; [exact Hcall|].
    rewrite sized_elements, with_renderer_elements, presented_this, presented_renderers.
    change (_elements (this (with_canvas name s0))) with (_elements (this s0)).
    destruct Hs0 as [(_ & _ & -> & ->)|[(c & p & Hr & _ & _ & -> & ->)|(i & _ & _ & -> & ->)]];
      cbn [torn_down with_defaultId emit with_this with_doc this _elements set_elements].
    + split; [apply sublist_inserts_r, sublist_filter|].
      split; [|intros _; by apply sublist_inserts_r].
      intros e He. apply elem_of_app in He as [He|He]; [by left|].
      apply list_elem_of_singleton in He. by right.
    + split; [by apply sublist_inserts_r|].
      split; [|intros ?; congruence].
      intros e He. apply elem_of_app in He as [He|He].
      * apply list_elem_of_filter in He as [_ He]. by left.
      * apply list_elem_of_singleton in He. by right.
    + split; [apply sublist_inserts_r, sublist_filter|].
      split; [|intros _; by apply sublist_inserts_r].
      intros e He. apply elem_of_app in He as [He|He]; [by left|].
      apply list_elem_of_singleton in He. by right.
  - assert (requested k renderer = Rasterized2D) as Hr
      by (destruct (requested k renderer); tauto).
    assert (_defaultGraphicsCreated (this s) = true) as Hcreated
      by (destruct (_defaultGraphicsCreated (this s)); tauto).
    unfold wf in Hwf. destruct (_renderer (this s)) as [g|] eqn:Hg;
      [|destruct Hwf; congruence].
    destruct Hwf as (o & Ho & Hd & Hc & Hlt & _).
    exists g. eexists. split; [by eapply createCanvas_2d_again|].
    rewrite sized_elements, presented_this.
    split; [apply sublist_filter|]. split; [by left|done].
Qed.

Lemma createCanvas_registry_frame_witness :
  ∃ g s',
    createCanvas token_constants quiet_host 100 100 (Some "WEBGL") canvas_world
      = Return g s' ∧
    filter (λ e, Some e ≠ _renderer (this canvas_world)) (_elements (this canvas_world))
      `sublist_of` _elements (this s') ∧
    (∀ e, e ∈ _elements (this s') → e ∈ _elements (this canvas_world) ∨ e = g) ∧
    (requested token_constants (Some "WEBGL") = Rasterized2D →
     _elements (this canvas_world) `sublist_of` _elements (this s')).
Proof.
  apply (createCanvas_registry_frame token_constants quiet_host 100 100 (Some "WEBGL")
           canvas_world).
  - reflexivity.
  - apply wf_canvas_world.
Defined.

(** ** The renderer argument *)

(** X11.  [createCanvas] looks at its renderer argument only to compare
    [renderer || constants.P2D] with [constants.WEBGL]: two calls whose
    arguments pass the validator and ask for the same backend do the same.
    No argument, the empty string and any string other than the WEBGL token
    all select the P2D branch. *)
Theorem createCanvas_renderer_only_WEBGL k H w h r1 r2 s :
  validate H "createCanvas" ([VNum w; VNum h] ++ optional_arg r1) = None →
  validate H "createCanvas" ([VNum w; VNum h] ++ optional_arg r2) = None →
  requested k r1 = requested k r2 →
  createCanvas k H w h r1 s = createCanvas k H w h r2 s.
Proof.
  intros Hv1 Hv2 Hr. rewrite !createCanvas_unfold, !bind_validate_ok by done.
  unfold requested in Hr.
  destruct (String.eqb (or_default r1 (P2D k)) (WEBGL k)),
           (String.eqb (or_default r2 (P2D k)) (WEBGL k)); done.
Qed.

Lemma createCanvas_renderer_only_WEBGL_witness :
  createCanvas token_constants quiet_host 100 100 (Some EmptyString) empty_world
  = createCanvas token_constants quiet_host 100 100 None empty_world ∧
  createCanvas token_constants quiet_host 100 100 (Some "webgl") empty_world
  = createCanvas token_constants quiet_host 100 100 (Some "P2D") empty_world.
Proof.
  split.
  - apply (createCanvas_renderer_only_WEBGL token_constants quiet_host 100 100
             (Some EmptyString) None empty_world); reflexivity.
  - apply (createCanvas_renderer_only_WEBGL token_constants quiet_host 100 100
             (Some "webgl") (Some "P2D") empty_world); reflexivity.
Defined.

(** ** What [resizeCanvas] does not restore *)

(** X12.  [resizeCanvas] saves and restores the properties of the drawing
    context whose value is neither an object nor a function, and only those:
    under a key that held an object ([null] included) or a function, or that
    the context did not have, the context holds after the call what the
    renderer's resize left there. *)
Theorem resizeCanvas_skips_objects H w h s g o i c :
  validate H "resizeCanvas" [VNum w; VNum h; VBool true] = None →
  _renderer (this s) = Some g →
  renderers s !! g = Some o →
  drawingContext (this s) = Some i →
  contexts s !! i = Some c →
  ∃ s' c' c_resized,
    resizeCanvas H w h true s = Return tt s' ∧
    contexts s' !! i = Some c' ∧
    contexts (resized H g o w h s) !! i = Some c_resized ∧
    is_scalar VNull = false ∧
    (∀ ref, is_scalar (VObject ref) = false ∧ is_scalar (VFunction ref) = false) ∧
    ∀ key,
      (∀ val, ctx_props c !! key = Some val → is_scalar val = false) →
      ctx_props c' !! key = ctx_props c_resized !! key.
Proof.
  intros Hv Hg Ho Hi Hc.
  assert (∃ c1, contexts (resized H g o w h s) !! i = Some c1) as (c1 & Hc1).
  { rewrite resized_contexts. destruct (decide (r_context o = i)) as [->|Hne].
    - rewrite list_lookup_alter_eq, Hc. by eexists.
    - rewrite list_lookup_alter_ne by done. by eexists. }
  destruct (restored_context (map_to_list (saved_props s))
              (with_this (set_size w h) (resized H g o w h s)) i c1)
    as (c' & Hc' & _ & _ & Hkept).
  { rewrite <- Hi. apply (resized_drawingContext H g o w h s). }
  { done. }
  { apply NoDup_fst_map_to_list. }
  exists (restored (map_to_list (saved_props s))
            (with_this (set_size w h) (resized H g o w h s))), c', c1.
  split; [by rewrite (resizeCanvas_unfold H w h true s g o)|].
  split; [done|]. split; [done|]. split; [done|]. split; [done|].
  intros key Hkey. apply Hkept. right. intros Hin.
  apply list_elem_of_fmap in Hin as ([key' val] & -> & Hin).
  apply elem_of_map_to_list in Hin. cbn in Hkey.
  apply (saved_props_lookup s i c) in Hin as [Hval Hscalar]; [|done..].
  apply Hkey in Hval. congruence.
Qed.

Lemma resizeCanvas_skips_objects_witness :
  ∃ o s' c' c_resized,
    renderers canvas_world !! 0%nat = Some o ∧
    resizeCanvas quiet_host 640 480 true canvas_world = Return tt s' ∧
    contexts s' !! 0%nat = Some c' ∧
    contexts (resized quiet_host 0 o 640 480 canvas_world) !! 0%nat = Some c_resized ∧
    ctx_props c' !! "canvas" = ctx_props c_resized !! "canvas".
Proof.
  edestruct (resizeCanvas_skips_objects quiet_host 640 480 canvas_world 0)
    as (s' & c' & c_resized & Hcall & Hc' & Hcr & _ & _ & Hkey);
    [reflexivity|vm_compute; reflexivity..|].
  eexists. exists s', c', c_resized.
  split; [vm_compute; reflexivity|]. split; [exact Hcall|]. split; [exact Hc'|].
  split; [exact Hcr|].
  apply Hkey. intros val Hval. vm_compute in Hval. injection Hval as <-. reflexivity.
Defined.

(** ** What [noCanvas] leaves *)

(** X13.  [noCanvas] removes the canvas from its parent and does nothing
    else: the sketch keeps its renderer, its canvas and its registry, every
    element and every renderer is as it was, and every other element of the
    document has the parent it had. *)
Theorem noCanvas_only_detaches s c p :
  canvas (this s) = Some c →
  parentNode (doc s) c = Some p →
  ∃ s',
    noCanvas s = Return tt s' ∧
    parentNode (doc s') c = None ∧
    (∀ c0, c0 ≠ c → parentNode (doc s') c0 = parentNode (doc s) c0) ∧
    this s' = this s ∧
    renderers s' = renderers s ∧
    contexts s' = contexts s ∧
    nodes (doc s') = nodes (doc s) ∧
    defaultId s' = defaultId s ∧
    trace s' = trace s ++ [EvRemoveChild p c].
Proof.
  intros Hc Hp. eexists. split; [by apply noCanvas_attached|].
  split; [apply parentNode_removed|].
  split; [intros c0 Hne; by apply parentNode_removed_other|]. done.
Qed.

Lemma noCanvas_only_detaches_witness :
  ∃ s',
    noCanvas canvas_world = Return tt s' ∧
    parentNode (doc s') 1 = None ∧
    (∀ c0, c0 ≠ 1%nat → parentNode (doc s') c0 = parentNode (doc canvas_world) c0) ∧
    this s' = this canvas_world ∧
    renderers s' = renderers canvas_world ∧
    contexts s' = contexts canvas_world ∧
    nodes (doc s') = nodes (doc canvas_world) ∧
    defaultId s' = defaultId canvas_world ∧
    trace s' = trace canvas_world ++ [EvRemoveChild 0 1].
Proof.
  apply (noCanvas_only_detaches canvas_world 1 0); vm_compute; reflexivity.
Defined.

(** ** The element the WEBGL branch removes *)

(** X14.  The WEBGL branch of [createCanvas] looks the element to remove up
    by [defaultId], not by the sketch's [canvas]: whichever element is found
    under [defaultId] is removed from the document, every element but that
    one and the new canvas has the parent it had, and the sketch's renderer
    at the time of the call, if any, is filtered out of the registry. *)
Theorem createCanvas_3d_removes_id_holder k H w h renderer s c :
  validate H "createCanvas" ([VNum w; VNum h] ++ optional_arg renderer) = None →
  requested k renderer = Accelerated3D →
  getElementById (doc s) (defaultId s) = Some c →
  ∃ g s',
    let c' := length (nodes (doc s)) in
    createCanvas k H w h renderer s = Return g s' ∧
    is_Some (parentNode (doc s) c) ∧
    parentNode (doc s') c = None ∧
    (∀ c0, c0 ≠ c → c0 ≠ c' → parentNode (doc s') c0 = parentNode (doc s) c0) ∧
    canvas (this s') = Some c' ∧
    (c' ≠ c) ∧
    _elements (this s')
      = filter (λ e, Some e ≠ _renderer (this s)) (_elements (this s)) ++ [g].
Proof.
  intros Hv Hr Hc.
  destruct (getElementById_has_id _ _ _ Hc) as [Hid [p Hp]].
  pose proof (has_id_lt _ _ _ Hid) as Hlt.
  eexists. eexists. cbv zeta.
  split; [by apply (createCanvas_3d_replace k H w h renderer s c p)|].
  split; [by rewrite Hp|].
  assert (∀ c0, parentNode (doc (sized H (length (renderers s))
            (new_object Accelerated3D (length (nodes (doc s))) true
               (presented (length (nodes (doc s)))
                  (with_canvas (defaultId s) (torn_down c p s))))
            w h
            (with_renderer H Accelerated3D (length (nodes (doc s)))
               (presented (length (nodes (doc s)))
                  (with_canvas (defaultId s) (torn_down c p s)))))) c0
          = parentNode (appendChild (container s) (length (nodes (doc s)))
                          (removeChild c (doc s))) c0) as Hdoc.
  { intros c0. apply parentNode_ext.
    by rewrite sized_attached, with_renderer_doc, presented_attached. }
  split.
  { rewrite Hdoc, parentNode_appended_other by lia. apply parentNode_removed. }
  split.
  { intros c0 Hne Hne'.
    by rewrite Hdoc, parentNode_appended_other, parentNode_removed_other. }
  split; [by rewrite sized_canvas, with_renderer_canvas|].
  split; [lia|].
  by rewrite sized_elements, with_renderer_elements, presented_this, presented_renderers.
Qed.

Lemma createCanvas_3d_removes_id_holder_witness :
  ∃ g s',
    canvas (this occupied_world) = None ∧
    createCanvas token_constants quiet_host 100 100 (Some "WEBGL") occupied_world
      = Return g s' ∧
    is_Some (parentNode (doc occupied_world) 1) ∧
    parentNode (doc s') 1 = None ∧
    canvas (this s') = Some 2%nat.
Proof.
  destruct (createCanvas_3d_removes_id_holder token_constants quiet_host 100 100
              (Some "WEBGL") occupied_world 1)
    as (g & s' & Hcall & Hwas & Hgone & _ & Hc' & _).
  - reflexivity.
  - reflexivity.
  - reflexivity.
  - exists g, s'. split; [reflexivity|]. split; [exact Hcall|].
    split; [exact Hwas|]. split; [exact Hgone|exact Hc'].
Defined.

(** ** The invariant and the other functions *)

(** X15.  [noCanvas], [blendMode], [resizeCanvas] without the redraw pass
    and [createGraphics] keep the state invariant of the sketch; the last
    two return whenever the validator lets them. *)
Theorem wf_kept k H s :
  wf s →
  (∀ s', noCanvas s = Return tt s' → wf s') ∧
  (∀ mode s', blendMode k H mode s = Return tt s' → wf s') ∧
  (∀ w h,
     validate H "resizeCanvas" [VNum w; VNum h; VBool true] = None →
     ∃ s', resizeCanvas H w h true s = Return tt s' ∧ wf s') ∧
  (∀ w h renderer,
     validate H "createGraphics" ([VNum w; VNum h] ++ optional_arg renderer) = None →
     ∃ g s', createGraphics k H w h renderer s = Return g s' ∧ wf s').
Proof.
  intros Hwf. split; [intros s'; by apply wf_noCanvas|].
  split; [intros mode s'; by apply wf_blendMode|].
  split; [intros w h Hv; by apply wf_resizeCanvas|].
  intros w h renderer Hv. by apply wf_createGraphics.
Qed.

Lemma wf_kept_witness :
  (∃ s', noCanvas canvas_world = Return tt s' ∧ wf s') ∧
  (∃ s', blendMode token_constants quiet_host "ADD" canvas_world = Return tt s' ∧ wf s') ∧
  (∃ s', resizeCanvas quiet_host 640 480 true canvas_world = Return tt s' ∧ wf s') ∧
  (∃ g s', createGraphics token_constants quiet_host 50 50 None canvas_world
           = Return g s' ∧ wf s').
Proof.
  destruct (wf_kept token_constants quiet_host canvas_world wf_canvas_world)
    as (Hno & Hblend & Hresize & Hgraphics).
  split.
  { eexists. split; [vm_compute; reflexivity|]. apply Hno. vm_compute. reflexivity. }
  split.
  { eexists. split; [vm_compute; reflexivity|].
    apply (Hblend "ADD"). vm_compute. reflexivity. }
  split; [apply Hresize; reflexivity|]. apply Hgraphics. reflexivity.
Defined.

(** ** Asking for the 2D backend back *)

(** X16.  Once a 2D canvas was created, [createCanvas] asking for the 2D
    backend constructs nothing, whatever the sketch's renderer is: when a
    3D canvas has replaced the 2D one, the call returns the 3D renderer,
    still a 3D one, on the 3D canvas, and all it does is append that canvas
    again, resize the renderer and apply its defaults. *)
Theorem createCanvas_2d_request_keeps_3d k H w h renderer s g o :
  validate H "createCanvas" ([VNum w; VNum h] ++ optional_arg renderer) = None →
  requested k renderer = Rasterized2D →
  wf s →
  _defaultGraphicsCreated (this s) = true →
  _renderer (this s) = Some g →
  renderers s !! g = Some o →
  r_backend o = Accelerated3D →
  ∃ s',
    createCanvas k H w h renderer s = Return g s' ∧
    _renderer (this s') = Some g ∧
    r_backend <$> renderers s' !! g = Some Accelerated3D ∧
    canvas (this s') = Some (owningSurface o) ∧
    length (renderers s') = length (renderers s) ∧
    length (nodes (doc s')) = length (nodes (doc s)) ∧
    trace s' = trace s ++
      [EvAppendChild (container s) (owningSurface o); EvResize g w h; EvApplyDefaults g].
Proof.
  intros Hv Hr Hwf Hcreated Hg Ho Hb. unfold wf in Hwf. rewrite Hg in Hwf.
  destruct Hwf as (o' & Ho' & Hd & Hc & Hlt & _).
  assert (o' = o) as -> by congruence.
  eexists. split; [by eapply createCanvas_2d_again|].
  split; [by rewrite sized_renderer, presented_this|].
  split.
  { rewrite (sized_size H g o w h (presented (owningSurface o) s))
      by (by rewrite presented_renderers).
    cbn. by rewrite Hb. }
  split; [by rewrite sized_canvas, presented_this|].
  split; [by rewrite sized_renderers, length_alter, presented_renderers|].
  split; [apply sized_presented_length|].
  by rewrite sized_trace, presented_trace, <- app_assoc.
Qed.

Lemma createCanvas_2d_request_keeps_3d_witness :
  ∃ s',
    createCanvas token_constants quiet_host 100 100 None replaced_world = Return 1%nat s' ∧
    _renderer (this s') = Some 1%nat ∧
    r_backend <$> renderers s' !! 1%nat = Some Accelerated3D ∧
    length (renderers s') = length (renderers replaced_world).
Proof.
  edestruct (createCanvas_2d_request_keeps_3d token_constants quiet_host 100 100 None
               replaced_world 1)
    as (s' & Hcall & Hg & Hb & _ & Hlen & _).
  - reflexivity.
  - reflexivity.
  - vm_compute. eexists. repeat split; lia.
  - vm_compute. reflexivity.
  - vm_compute. reflexivity.
  - vm_compute. reflexivity.
  - vm_compute. reflexivity.
  - exists s'. split; [exact Hcall|]. split; [exact Hg|]. split; [exact Hb|exact Hlen].
Defined.
